(** * Phoenix permit scraper: record normalisation and paginated fetch

    A shallow embedding of [src/pheonix_permit_grab.py]:
    [PhoenixPermitScraper._parse_date], [_process_permit_data],
    [fetch_permits_for_date_range] and the header selection of [save_to_csv].

    Python values are an inductive type, exceptions an error monad, the
    [while True] loop a fuelled recursion that records every request and
    every sleep in a trace. *)

From Stdlib Require Import ZArith List String Ascii Bool Lia QArith.
Import ListNotations.
Local Open Scope string_scope.
Local Open Scope list_scope.
Local Open Scope Z_scope.
Set Warnings "-register-all".

(** ** Exceptions and results *)

Inductive exn : Type :=
| AttributeError
| TypeError
| ValueError
| OverflowError
| OSError.

Inductive res (A : Type) : Type :=
| Ret (a : A)
| Raise (e : exn).
Arguments Ret {A} a.
Arguments Raise {A} e.

Definition bind {A B : Type} (m : res A) (k : A -> res B) : res B :=
  match m with
  | Ret a => k a
  | Raise e => Raise e
  end.

Notation "x <- m ;; k" := (bind m (fun x => k))
  (at level 61, m at next level, right associativity).

(** ** Python values, as [json] decoding produces them *)

(** A float: not-a-number, an infinity, or a finite value (every finite
    double is a rational). Only truthiness and comparison with integers are
    ever applied to one here. *)
Inductive pyfloat : Type :=
| FNan
| FInf (negative : bool)
| FFin (q : Q).

(** A [dict] is an association list in insertion order; [get] takes the first
    binding of a key. A [str] is a [string] whose characters are the code
    points 0..255. *)
Inductive pyval : Type :=
| VNone
| VBool (b : bool)
| VInt (z : Z)
| VFloat (f : pyfloat)
| VStr (s : string)
| VList (l : list pyval)
| VDict (d : list (string * pyval)).

Definition pydict : Type := list (string * pyval).

(** [bool(v)], the test behind [if v] and [not v]. *)
Definition truthy (v : pyval) : bool :=
  match v with
  | VNone => false
  | VBool b => b
  | VInt z => negb (z =? 0)
  | VFloat FNan => true
  | VFloat (FInf _) => true
  | VFloat (FFin q) => negb (Qnum q =? 0)
  | VStr s => negb (String.eqb s "")
  | VList l => match l with [] => false | _ => true end
  | VDict d => match d with [] => false | _ => true end
  end.

(** [d.get(key, default)] *)
Fixpoint dict_get (d : pydict) (key : string) (default : pyval) : pyval :=
  match d with
  | [] => default
  | (k, v) :: d' => if String.eqb k key then v else dict_get d' key default
  end.

(** [v.get(key, default)]: only a [dict] has the attribute. *)
Definition py_get (v : pyval) (key : string) (default : pyval) : res pyval :=
  match v with
  | VDict d => Ret (dict_get d key default)
  | _ => Raise AttributeError
  end.

(** [list(d.keys())] *)
Definition dict_keys (d : pydict) : list string := map fst d.

(** [len(v)] *)
Definition py_len (v : pyval) : res Z :=
  match v with
  | VStr s => Ret (Z.of_nat (String.length s))
  | VList l => Ret (Z.of_nat (List.length l))
  | VDict d => Ret (Z.of_nat (List.length d))
  | _ => Raise TypeError
  end.

(** The items a [for] loop over [v] visits: the elements of a list, the
    one-character strings of a string, the keys of a dict. *)
Definition py_iter (v : pyval) : res (list pyval) :=
  match v with
  | VList l => Ret l
  | VStr s => Ret (map (fun c => VStr (String c "")) (list_ascii_of_string s))
  | VDict d => Ret (map VStr (dict_keys d))
  | _ => Raise TypeError
  end.

(** *** Comparison of an integer with a value *)

Definition compare_int_float (z : Z) (f : pyfloat) : option comparison :=
  match f with
  | FNan => None
  | FInf true => Some Gt
  | FInf false => Some Lt
  | FFin q => Some (Qcompare (inject_Z z) q)
  end.

(** [Some c]: the integer is [c] relative to the value; [None] with a
    number: unordered (NaN). Values that are not numbers have no order. *)
Definition compare_int (z : Z) (v : pyval) : res (option comparison) :=
  match v with
  | VBool b => Ret (Some (Z.compare z (if b then 1 else 0)))
  | VInt t => Ret (Some (Z.compare z t))
  | VFloat f => Ret (compare_int_float z f)
  | _ => Raise TypeError
  end.

(** [v == z]: never raises, false across types. *)
Definition py_eq_int (v : pyval) (z : Z) : bool :=
  match compare_int z v with
  | Ret (Some Eq) => true
  | _ => false
  end.

(** [v > z] *)
Definition py_gt_int (v : pyval) (z : Z) : res bool :=
  c <- compare_int z v ;;
  Ret (match c with Some Lt => true | _ => false end).

(** [z >= v] *)
Definition py_int_ge (z : Z) (v : pyval) : res bool :=
  c <- compare_int z v ;;
  Ret (match c with Some Gt | Some Eq => true | _ => false end).

(** ** Strings *)

Definition in_chars (chars : string) (c : ascii) : bool :=
  existsb (Ascii.eqb c) (list_ascii_of_string chars).

Fixpoint lstrip (drop : ascii -> bool) (s : string) : string :=
  match s with
  | EmptyString => EmptyString
  | String c s' => if drop c then lstrip drop s' else s
  end.

Fixpoint rstrip (drop : ascii -> bool) (s : string) : string :=
  match s with
  | EmptyString => EmptyString
  | String c s' =>
      match rstrip drop s' with
      | EmptyString => if drop c then EmptyString else String c EmptyString
      | r => String c r
      end
  end.

(** [s.strip(chars)]: every leading and trailing character that belongs to
    the set [chars] is removed. *)
Definition strip (chars : string) (s : string) : string :=
  rstrip (in_chars chars) (lstrip (in_chars chars) s).

(** [s.startswith(p)] *)
Fixpoint startswith (s p : string) {struct p} : bool :=
  match p with
  | EmptyString => true
  | String a p' =>
      match s with
      | EmptyString => false
      | String b s' => Ascii.eqb a b && startswith s' p'
      end
  end.

(** *** [int(s)] *)

(** White space for [int]: the ASCII white space and, among the code points
    128..255, U+0085 and U+00A0. *)
Definition is_space (c : ascii) : bool :=
  let n := nat_of_ascii c in
  ((9 <=? n) && (n <=? 13))%nat || (n =? 32)%nat || (n =? 133)%nat
  || (n =? 160)%nat.

Definition is_digit (c : ascii) : bool :=
  let n := nat_of_ascii c in ((48 <=? n) && (n <=? 57))%nat.

Definition digit_value (c : ascii) : Z := Z.of_nat (nat_of_ascii c) - 48.

Inductive scanned : Type := AtStart | AfterDigit | AfterUnderscore.

(** The digit scan of the literal: digits, with a single underscore allowed
    between two digits. Returns the value and the number of digits. *)
Fixpoint scan_digits (s : string) (prev : scanned) (acc : Z) (count : nat)
  : option (Z * nat) :=
  match s with
  | EmptyString =>
      match prev with AfterDigit => Some (acc, count) | _ => None end
  | String c s' =>
      if is_digit c then
        scan_digits s' AfterDigit (10 * acc + digit_value c) (S count)
      else if Ascii.eqb c "_"%char then
        match prev with
        | AfterDigit => scan_digits s' AfterUnderscore acc count
        | _ => None
        end
      else None
  end.

Definition split_sign (s : string) : bool * string :=
  match s with
  | String c s' =>
      if Ascii.eqb c "-"%char then (true, s')
      else if Ascii.eqb c "+"%char then (false, s')
      else (false, s)
  | EmptyString => (false, s)
  end.

(** *** Calendar dates *)

(** The proleptic Gregorian date [(year, month, day)] of a day number counted
    from 1970-01-01. *)
Definition civil_from_days (days : Z) : Z * Z * Z :=
  let z := days + 719468 in
  let era := z / 146097 in
  let doe := z - era * 146097 in
  let yoe := (doe - doe / 1460 + doe / 36524 - doe / 146096) / 365 in
  let doy := doe - (365 * yoe + yoe / 4 - yoe / 100) in
  let mp := (5 * doy + 2) / 153 in
  let d := doy - (153 * mp + 2) / 5 + 1 in
  let m := if mp <? 10 then mp + 3 else mp - 9 in
  let y := yoe + era * 400 in
  (if m <=? 2 then y + 1 else y, m, d).

Definition digit_char (n : Z) : ascii := ascii_of_nat (Z.to_nat (48 + n mod 10)).

Definition pad2 (n : Z) : string :=
  String (digit_char (n / 10)) (String (digit_char n) "").

Definition pad4 (n : Z) : string :=
  String (digit_char (n / 1000)) (String (digit_char (n / 100)) (pad2 n)).

(** [strftime('%Y-%m-%d')] for a four-digit year *)
Definition strftime_Ymd (date : Z * Z * Z) : string :=
  let '(y, m, d) := date in
  (pad4 y ++ "-" ++ pad2 m ++ "-" ++ pad2 d)%string.

(** *** Shapes of date strings *)

Definition string_rev (s : string) : string :=
  string_of_list_ascii (rev (list_ascii_of_string s)).

(** [s.endswith(p)] *)
Definition endswith (s p : string) : bool :=
  startswith (string_rev s) (string_rev p).

(** The wrapper of the source format: [/Date(] in front and [)/] behind. *)
Definition has_wrapper (s : string) : bool :=
  startswith s "/Date(" && endswith s ")/".

Fixpoint all_digits (s : string) : bool :=
  match s with
  | EmptyString => true
  | String c s' => is_digit c && all_digits s'
  end.

(** The number a run of decimal digits denotes, most significant first. *)
Fixpoint decimal_value (acc : Z) (s : string) : Z :=
  match s with
  | EmptyString => acc
  | String c s' => decimal_value (10 * acc + digit_value c) s'
  end.

(** *** Responses *)

(** What [session.post] followed by [raise_for_status] and [json] has to
    work with: the request raised, or a response came back with a status and
    a body whose decoding is [None] when the text is not JSON. *)
Inductive http_outcome : Type :=
| TransportFailure
| Response (status_code : Z) (body : option pyval).

(** A response without its ["Total"] entry. *)
Definition drop_total (response_data : pyval) : pyval :=
  match response_data with
  | VDict d => VDict (filter (fun kv => negb (String.eqb (fst kv) "Total")) d)
  | other => other
  end.

(** [save_to_csv]: the header is [data[0].keys()]; nothing is written for
    empty data. *)
Definition fieldnames (data : list pyval) : option (list string) :=
  match data with
  | VDict first :: _ => Some (dict_keys first)
  | _ => None
  end.

(** *** The rows handed to the csv writer *)

(** [DictWriter._dict_to_list] with the defaults [extrasaction='raise'] and
    [restval='']: a row with a key outside the field names is a
    [ValueError]; a missing key gives the empty string. A row that is no
    mapping has no [keys]. *)
Definition dict_to_list (names : list string) (rowdict : pyval)
  : res (list pyval) :=
  match rowdict with
  | VDict d =>
      if forallb (fun key => existsb (String.eqb key) names) (dict_keys d)
      then Ret (map (fun key => dict_get d key (VStr "")) names)
      else Raise ValueError
  | _ => Raise AttributeError
  end.

(** [DictWriter.writerows]: the rows are converted one by one as the
    writer consumes them, so the rows before a failing one are written. *)
Fixpoint writerows (names : list string) (rowdicts : list pyval)
  : list (list pyval) * option exn :=
  match rowdicts with
  | [] => ([], None)
  | rowdict :: rest =>
      match dict_to_list names rowdict with
      | Ret cells =>
          let (rows, failure) := writerows names rest in
          (cells :: rows, failure)
      | Raise e => ([], Some e)
      end
  end.

(** What [save_to_csv] leaves behind: the rows of the file when it was
    opened (the header first; each cell still a value, the rendering as text
    is the csv writer's), and the exception its [except] clauses reported. *)
Record csv_effect : Type := CsvEffect {
  file_rows : option (list (list pyval));
  reported : option exn
}.

(** The cells of a row under the given field names. *)
Definition row_cells (names : list string) (row : pyval) : list pyval :=
  match row with
  | VDict d => map (fun key => dict_get d key (VStr "")) names
  | _ => []
  end.

(** A value that orders with the integers. *)
Definition is_number (v : pyval) : bool :=
  match v with
  | VBool _ | VInt _ | VFloat _ => true
  | _ => false
  end.

(** *** Sample data *)

Definition sample_permit (number : string) : pyval :=
  VDict [("TypeNumber", VStr number);
         ("PermitAddress", VStr "200 W WASHINGTON ST");
         ("ProfessionalName", VStr "SUN CO");
         ("IssuedDate", VStr "/Date(1700000000000)/");
         ("PermitType", VStr "RPV");
         ("Status", VStr "OPEN")].

Definition sample_row (number : string) : pyval :=
  VDict [("permit_number", VStr number);
         ("address", VStr "200 W WASHINGTON ST");
         ("contractor", VStr "SUN CO");
         ("issued_date", VStr "2023-11-14");
         ("permit_type", VStr "RPV");
         ("status", VStr "OPEN")].

Definition envelope (data : list pyval) (total : Z) : pyval :=
  VDict [("Data", VList data); ("Total", VInt total)].

(** A server that answers by page number and fails on every page it has no
    answer for. *)
Definition serve (answers : list (Z * pyval)) (payload : pydict)
  : http_outcome :=
  match dict_get payload "page" VNone with
  | VInt page =>
      match find (fun a => fst a =? page) answers with
      | Some (_, response) => Response 200 (Some response)
      | None => TransportFailure
      end
  | _ => TransportFailure
  end.

(** Two pages of size 2: a full one and a last one with a single record. *)
Definition two_pages : list (Z * pyval) :=
  [(1, envelope [sample_permit "RPV 1"; sample_permit "RPV 2"] 3);
   (2, envelope [sample_permit "RPV 3"] 3)].

(** One full page of size 2 whose total is 2. *)
Definition one_full_page : list (Z * pyval) :=
  [(1, envelope [sample_permit "RPV 1"; sample_permit "RPV 2"] 2)].

(** One full page of size 1 whose only record has no required field. *)
Definition one_rejected_page : list (Z * pyval) :=
  [(1, envelope [VDict []] 1)].


(** A record whose date is an integer, not a string. *)
Definition permit_with_integer_date : pyval :=
  VDict [("TypeNumber", VStr "RPV 1");
         ("PermitAddress", VStr "200 W WASHINGTON ST");
         ("IssuedDate", VInt 1700000000000)].

(** A record whose date is not in the source format. *)
Definition permit_with_garbage_date : pydict :=
  [("TypeNumber", VStr "RPV 1");
   ("PermitAddress", VStr "200 W WASHINGTON ST");
   ("IssuedDate", VStr "garbage")].

(** The first page reports no record. *)
Definition empty_range : list (Z * pyval) := [(1, envelope [] 0)].

(** The same two pages with another total on the second one. *)
Definition two_pages_other_total : list (Z * pyval) :=
  [(1, envelope [sample_permit "RPV 1"; sample_permit "RPV 2"] 3);
   (2, envelope [sample_permit "RPV 3"] 99)].

(** A full first page, then a body that is a JSON list. *)
Definition list_on_second_page : list (Z * pyval) :=
  [(1, envelope [sample_permit "RPV 1"; sample_permit "RPV 2"] 3);
   (2, VList [sample_permit "RPV 3"])].

(** A first page whose total is a string. *)
Definition total_as_text : list (Z * pyval) :=
  [(1, VDict [("Data", VList [sample_permit "RPV 1"]); ("Total", VStr "1")])].

(** A full first page, then a page whose second record has an integer
    date. *)
Definition integer_date_on_second_page : list (Z * pyval) :=
  [(1, envelope [sample_permit "RPV 1"; sample_permit "RPV 2"] 4);
   (2, envelope [sample_permit "RPV 3"; permit_with_integer_date] 4)].

(** A server whose every page is one record without the required fields,
    out of a reported total of 1. *)
Definition always_rejected (_ : pydict) : http_outcome :=
  Response 200 (Some (envelope [VDict []] 1)).

(** The sample permit with another key in front and its keys in another
    order. *)
Definition sample_permit_reordered (number : string) : pydict :=
  [("PID", VInt 7);
   ("Status", VStr "OPEN");
   ("PermitType", VStr "RPV");
   ("IssuedDate", VStr "/Date(1700000000000)/");
   ("ProfessionalName", VStr "SUN CO");
   ("PermitAddress", VStr "200 W WASHINGTON ST");
   ("TypeNumber", VStr number)].

Definition every_file_opens (_ : string) : bool := true.

(** A full first page out of 10 records, then a short page. *)
Definition short_second_page : list (Z * pyval) :=
  [(1, envelope [sample_permit "RPV 1"; sample_permit "RPV 2"] 10);
   (2, envelope [sample_permit "RPV 3"] 10)].

(** A full first page out of 10 records, then an empty page. *)
Definition empty_second_page : list (Z * pyval) :=
  [(1, envelope [sample_permit "RPV 1"; sample_permit "RPV 2"] 10);
   (2, envelope [] 10)].

(** A first page that reports 5 records and holds none. *)
Definition promised_but_empty : list (Z * pyval) := [(1, envelope [] 5)].


Definition utc (_ : Z) : Z := 0.

(** Arizona: seven hours west of UTC all year. *)
Definition phoenix (_ : Z) : Z := -25200.

(** A platform on which every date out of range is a [ValueError]. *)
Definition year_out_of_range (_ : Z) : res string := Raise ValueError.

(** ** The scraper *)

Section Scraper.

(** *** The interpreter and the platform *)

(** [sys.get_int_max_str_digits()]: 4300 by default, 0 for no limit. *)
Variable int_max_str_digits : nat.

(** The local zone: seconds east of UTC in force at an epoch second. *)
Variable utcoffset : Z -> Z.

(** What [datetime.fromtimestamp(ms / 1000).strftime('%Y-%m-%d')] does for
    a negative timestamp or a local year outside 1000..9999. It depends on the
    platform and on the magnitude: a date, [ValueError] (year out of range),
    [OverflowError] (the division or the conversion to [time_t]) or
    [OSError] (the C [localtime]). *)
Variable fromtimestamp_elsewhere : Z -> res string.

(** [int(s)] for a string, base 10: [ValueError] for anything that is not
    an optionally signed literal inside optional white space, and for a
    literal of more digits than the limit. *)
Definition py_int (s : string) : res Z :=
  let (negative, body) := split_sign (rstrip is_space (lstrip is_space s)) in
  match scan_digits body AtStart 0 0 with
  | Some (v, count) =>
      if ((0 <? int_max_str_digits) && (int_max_str_digits <? count))%nat
      then Raise ValueError
      else Ret (if negative then - v else v)
  | None => Raise ValueError
  end.

(** The local calendar date of a millisecond timestamp. *)
Definition local_date (timestamp_ms : Z) : Z * Z * Z :=
  let t := timestamp_ms / 1000 in
  civil_from_days ((t + utcoffset t) / 86400).

(** [datetime.fromtimestamp(timestamp_ms / 1000).strftime('%Y-%m-%d')].
    From the epoch to the end of year 9999 the quotient is below 2^38, the
    double nearest to it has the same integer part, and the result is the
    local date of that second. *)
Definition fromtimestamp_strftime (timestamp_ms : Z) : res string :=
  let '(y, m, d) := local_date timestamp_ms in
  if (0 <=? timestamp_ms) && (1000 <=? y) && (y <=? 9999)
  then Ret (strftime_Ymd (y, m, d))
  else fromtimestamp_elsewhere timestamp_ms.

(** [try: ... except (ValueError, TypeError): return None] *)
Definition except_ValueError_TypeError (m : res pyval) : res pyval :=
  match m with
  | Raise ValueError | Raise TypeError => Ret VNone
  | other => other
  end.

(** [_parse_date]. The guard [not date_string or not
    date_string.startswith('/Date(')] is outside the [try]: a truthy value
    that is not a string has no [startswith]. *)
Definition _parse_date (date_string : pyval) : res pyval :=
  if negb (truthy date_string) then Ret VNone
  else
    match date_string with
    | VStr s =>
        if negb (startswith s "/Date(") then Ret VNone
        else
          except_ValueError_TypeError
            (timestamp_ms <- py_int (strip "/Date()" s) ;;
             formatted <- fromtimestamp_strftime timestamp_ms ;;
             Ret (VStr formatted))
    | _ => Raise AttributeError
    end.

(** [_process_permit_data]: the date is decoded before the two required
    fields are checked. *)
Definition _process_permit_data (permit_json : pyval) : res pyval :=
  permit_number <- py_get permit_json "TypeNumber" VNone ;;
  address <- py_get permit_json "PermitAddress" VNone ;;
  contractor <- py_get permit_json "ProfessionalName" VNone ;;
  issued_date_raw <- py_get permit_json "IssuedDate" VNone ;;
  issued_date <- _parse_date issued_date_raw ;;
  permit_type <- py_get permit_json "PermitType" VNone ;;
  status <- py_get permit_json "Status" VNone ;;
  if negb (truthy permit_number) || negb (truthy address) then Ret VNone
  else
    Ret (VDict [("permit_number", permit_number);
                ("address", address);
                ("contractor", contractor);
                ("issued_date", issued_date);
                ("permit_type", permit_type);
                ("status", status)]).

(** The timestamps whose date every platform decodes: from the epoch on,
    with a four-digit local year. *)
Definition in_datetime_range (timestamp_ms : Z) : bool :=
  let '(y, _, _) := local_date timestamp_ms in
  (0 <=? timestamp_ms) && (1000 <=? y) && (y <=? 9999).

(** A literal of [digits] digits passes the length check of [int]. *)
Definition digits_allowed (digits : nat) : bool :=
  negb ((0 <? int_max_str_digits) && (int_max_str_digits <? digits))%nat.

(** The values of [IssuedDate] whose decoding is settled here: a falsy
    value, or a string that lacks the prefix, or whose stripped content is
    no integer literal, or whose timestamp lies in [in_datetime_range]. *)
Definition date_field_supported (v : pyval) : bool :=
  match v with
  | VStr s =>
      if startswith s "/Date(" then
        match py_int (strip "/Date()" s) with
        | Ret timestamp_ms => in_datetime_range timestamp_ms
        | Raise _ => true
        end
      else true
  | _ => negb (truthy v)
  end.

(** A string the decoder cannot turn into a date. *)
Definition malformed_date (s : string) : Prop :=
  startswith s "/Date(" = false \/
  exists e, py_int (strip "/Date()" s) = Raise e.

(** The normalised record, field by field. *)
Definition normalized_record (d : pydict) (issued_date : pyval) : pyval :=
  VDict [("permit_number", dict_get d "TypeNumber" VNone);
         ("address", dict_get d "PermitAddress" VNone);
         ("contractor", dict_get d "ProfessionalName" VNone);
         ("issued_date", issued_date);
         ("permit_type", dict_get d "PermitType" VNone);
         ("status", dict_get d "Status" VNone)].

Definition record_keys : list string :=
  ["permit_number"; "address"; "contractor"; "issued_date"; "permit_type";
   "status"].

(** *** The paginated fetch *)

(** [self.page_size] *)
Variable page_size : Z.

(** [self.session.post(self.BASE_URL, data=payload)]. Within one run the
    payloads differ in their page, so a function of the payload covers every
    sequence of answers. *)
Variable session_post : pydict -> http_outcome.

Variable start_date_str end_date_str : string.
Variable delay_seconds : Z.

(** [_make_request]: the decoded body, or [None] after any failure: the
    three [except] clauses catch every exception of the [try] block. *)
Definition _make_request (payload : pydict) : pyval :=
  match session_post payload with
  | TransportFailure => VNone
  | Response status_code body =>
      if (400 <=? status_code) && (status_code <? 600) then VNone
      else match body with
           | Some data => data
           | None => VNone
           end
  end.

(** The three ways a page request fails. *)
Definition page_request_fails (outcome : http_outcome) : Prop :=
  outcome = TransportFailure
  \/ (exists status_code body,
         outcome = Response status_code body /\ 400 <= status_code < 600)
  \/ (exists status_code, outcome = Response status_code None).

Definition build_payload (current_page : Z) : pydict :=
  [("sort", VStr "");
   ("page", VInt current_page);
   ("pageSize", VInt page_size);
   ("group", VStr "");
   ("filter", VStr "");
   ("PermitType", VStr "");
   ("PermitNumber", VStr "");
   ("TempPermit", VStr "Y");
   ("AddrNumber", VStr "");
   ("AddrDirection", VStr "");
   ("AddrStreet", VStr "");
   ("AddrType", VStr "");
   ("ProfName", VStr "");
   ("ProfStateLicense", VStr "");
   ("ProjectNumber", VStr "");
   ("ProjectName", VStr "");
   ("SolarGreenAdaptive", VStr "solar");
   ("SolarGreenAdaptiveStartDate", VStr start_date_str);
   ("SolarGreenAdaptiveEndDate", VStr end_date_str)].

(** What the run does to the outside world, in order. *)
Inductive event : Type :=
| Request (payload : pydict)
| Sleep (seconds : Z).

(** The three local variables of the loop. *)
Record session : Type := Session {
  current_page : Z;
  all_permits : list pyval;
  total_records : pyval
}.

Inductive control : Type :=
| Break (result : list pyval)
| Continue (next : session).

(** The [for] loop over one page: each record that normalises to a truthy
    value is appended. *)
Fixpoint process_page (items : list pyval) (acc : list pyval)
  : res (list pyval) :=
  match items with
  | [] => Ret acc
  | permit_json :: rest =>
      processed <- _process_permit_data permit_json ;;
      process_page rest (if truthy processed then acc ++ [processed] else acc)
  end.

Definition is_None (v : pyval) : bool :=
  match v with VNone => true | _ => false end.

(** One pass through the loop body after the request, up to the [break] or
    the increment of the page. *)
Definition page_step (st : session) (response_data : pyval) : res control :=
  if is_None response_data then Ret (Break (all_permits st))
  else
    permit_list_json <- py_get response_data "Data" (VList []) ;;
    if negb (truthy permit_list_json) && (1 <? current_page st)
    then Ret (Break (all_permits st))
    else
      total <- (if current_page st =? 1
                then py_get response_data "Total" (VInt 0)
                else Ret (total_records st)) ;;
      stop_on_first <-
        (if current_page st =? 1 then
           if py_eq_int total 0 then Ret true
           else
             reported <- py_gt_int total 0 ;;
             Ret (reported && negb (truthy permit_list_json))
         else Ret false) ;;
      if (stop_on_first : bool) then Ret (Break (all_permits st))
      else
        items <- py_iter permit_list_json ;;
        permits <- process_page items (all_permits st) ;;
        enough <- py_int_ge (Z.of_nat (List.length permits)) total ;;
        done <- (if (enough : bool) then Ret true
                 else
                   n <- py_len permit_list_json ;;
                   Ret (n <? page_size)) ;;
        if (done : bool) then Ret (Break permits)
        else Ret (Continue {| current_page := current_page st + 1;
                              all_permits := permits;
                              total_records := total |}).

(** The whole loop body: the request, the step, and [time.sleep], which
    raises [ValueError] for a negative length. *)
Definition loop_body (st : session) : res control * list event :=
  let payload := build_payload (current_page st) in
  match page_step st (_make_request payload) with
  | Ret (Continue next) =>
      if delay_seconds <? 0 then (Raise ValueError, [Request payload])
      else (Ret (Continue next), [Request payload; Sleep delay_seconds])
  | other => (other, [Request payload])
  end.

(** [while True]: [None] when the fuel runs out before the loop ends. *)
Fixpoint fetch_loop (fuel : nat) (st : session)
  : option (res (list pyval)) * list event :=
  match fuel with
  | O => (None, [])
  | S fuel' =>
      match loop_body st with
      | (Ret (Break result), events) => (Some (Ret result), events)
      | (Raise e, events) => (Some (Raise e), events)
      | (Ret (Continue next), events) =>
          let (outcome, later) := fetch_loop fuel' next in
          (outcome, events ++ later)
      end
  end.

Definition initial_session : session :=
  {| current_page := 1; all_permits := []; total_records := VInt 0 |}.

Definition fetch_permits_for_date_range (fuel : nat)
  : option (res (list pyval)) * list event :=
  fetch_loop fuel initial_session.

(** The first [k] passes, when each of them goes on to the next page. *)
Fixpoint run_pages (k : nat) (st : session) : option (session * list event) :=
  match k with
  | O => Some (st, [])
  | S k' =>
      match loop_body st with
      | (Ret (Continue next), events) =>
          match run_pages k' next with
          | Some (final, later) => Some (final, events ++ later)
          | None => None
          end
      | _ => None
      end
  end.

(** The requests of a trace, in order. *)
Definition requests (trace : list event) : list pydict :=
  flat_map (fun e => match e with Request p => [p] | Sleep _ => [] end) trace.

(** The row a raw record contributes, if any. *)
Definition keep_row (permit_json : pyval) : list pyval :=
  match _process_permit_data permit_json with
  | Ret processed => if truthy processed then [processed] else []
  | Raise _ => []
  end.

(** The records of one page that normalisation keeps, in page order. *)
Definition kept_rows (response_data : pyval) : list pyval :=
  match py_get response_data "Data" (VList []) with
  | Ret permit_list_json =>
      match py_iter permit_list_json with
      | Ret items => flat_map keep_row items
      | Raise _ => []
      end
  | Raise _ => []
  end.

(** The pages 1..k *)
Definition pages (k : nat) : list Z := map (fun i => Z.of_nat (S i)) (seq 0 k).

(** The fields of a request, and what the protocol asks of the payload of a
    page (from the field list of the endpoint). *)
Definition payload_fields : list string :=
  ["sort"; "page"; "pageSize"; "group"; "filter"; "PermitType";
   "PermitNumber"; "TempPermit"; "AddrNumber"; "AddrDirection"; "AddrStreet";
   "AddrType"; "ProfName"; "ProfStateLicense"; "ProjectNumber"; "ProjectName";
   "SolarGreenAdaptive"; "SolarGreenAdaptiveStartDate";
   "SolarGreenAdaptiveEndDate"].

Definition payload_for_page (page : Z) (payload : pydict) : Prop :=
  dict_keys payload = payload_fields
  /\ dict_get payload "TempPermit" VNone = VStr "Y"
  /\ dict_get payload "SolarGreenAdaptive" VNone = VStr "solar"
  /\ dict_get payload "page" VNone = VInt page
  /\ dict_get payload "pageSize" VNone = VInt page_size
  /\ dict_get payload "SolarGreenAdaptiveStartDate" VNone = VStr start_date_str
  /\ dict_get payload "SolarGreenAdaptiveEndDate" VNone = VStr end_date_str
  /\ (forall field,
         In field payload_fields ->
         ~ In field ["TempPermit"; "SolarGreenAdaptive"; "page"; "pageSize";
                     "SolarGreenAdaptiveStartDate"; "SolarGreenAdaptiveEndDate"] ->
         dict_get payload field VNone = VStr "").

(** The shape of a row of the result. *)
Definition row_with_keys (keys : list string) (row : pyval) : Prop :=
  exists record, row = VDict record /\ dict_keys record = keys.

(** A raw record that normalisation turns into the row [row]. *)
Definition normalizes_to (permit_json row : pyval) : Prop :=
  _process_permit_data permit_json = Ret row /\ truthy row = true.

(** *** Further vocabulary for the fetch *)

(** [m] requests from page [first] on, with one sleep between two
    consecutive requests and none after the last. *)
Fixpoint paced_requests (first : Z) (m : nat) : list event :=
  match m with
  | O => []
  | S m' =>
      Request (build_payload first)
      :: match m' with
         | O => []
         | S _ => Sleep delay_seconds :: paced_requests (first + 1) m'
         end
  end.

(** A page whose request failed, or whose envelope holds a list of records
    that all normalise to a row. *)
Definition page_well_formed (page : Z) : Prop :=
  _make_request (build_payload page) = VNone
  \/ exists d items rows,
      _make_request (build_payload page) = VDict d
      /\ dict_get d "Data" (VList []) = VList items
      /\ Forall2 normalizes_to items rows.

(** A full page of records that are all rejected. *)
Definition page_all_rejected (page : Z) : Prop :=
  exists d items,
    _make_request (build_payload page) = VDict d
    /\ dict_get d "Data" (VList []) = VList items
    /\ Z.of_nat (List.length items) = page_size
    /\ Forall (fun permit_json => _process_permit_data permit_json = Ret VNone)
         items.

(** The invariant of a normalised row: both required fields truthy, the
    date absent or a string. *)
Definition valid_row (row : pyval) : Prop :=
  exists record,
    row = VDict record
    /\ dict_keys record = record_keys
    /\ truthy (dict_get record "permit_number" VNone) = true
    /\ truthy (dict_get record "address" VNone) = true
    /\ (dict_get record "issued_date" VNone = VNone
        \/ exists s, dict_get record "issued_date" VNone = VStr s).

(** *** Saving *)

(** [save_to_csv]. [data[0].keys()] is outside the [try]; everything after
    it is inside, and both [except] clauses only report. [IOError] is
    [OSError]. [can_open] tells whether [open(filename, 'w', ...)] succeeds;
    failures of the disk after that are not modelled. *)
Definition save_to_csv (can_open : string -> bool)
           (data : list pyval) (filename : string) : res csv_effect :=
  match data with
  | [] => Ret {| file_rows := None; reported := None |}
  | _ =>
      match fieldnames data with
      | None => Raise AttributeError
      | Some names =>
          if can_open filename then
            let (rows, failure) := writerows names data in
            Ret {| file_rows := Some (map VStr names :: rows);
                   reported := failure |}
          else Ret {| file_rows := None; reported := Some OSError |}
      end
  end.

(** The [try] block of the main program, for the scraper, the dates and the
    file name it is run with: fetch, and save when the result is not empty.
    [except Exception] reports whatever escapes. The outer [option] is the
    fuel of the fetch. *)
Definition fetch_and_save (can_open : string -> bool)
           (output_filename : string) (fuel : nat) : option csv_effect :=
  match fst (fetch_permits_for_date_range fuel) with
  | None => None
  | Some (Raise e) => Some {| file_rows := None; reported := Some e |}
  | Some (Ret fetched_permits) =>
      if truthy (VList fetched_permits) then
        match save_to_csv can_open fetched_permits output_filename with
        | Ret effect => Some effect
        | Raise e => Some {| file_rows := None; reported := Some e |}
        end
      else Some {| file_rows := None; reported := None |}
  end.

(** *** The protocol with the total given *)

(** The total of the first response: its ["Total"], 0 when it has none. *)
Definition first_page_total : pyval :=
  match _make_request (build_payload 1) with
  | VDict d => dict_get d "Total" (VInt 0)
  | _ => VInt 0
  end.

Inductive verdict : Type :=
| Stop (result : list pyval)
| Advance (rows : list pyval).

(** One page as the protocol words it, for a total that is given and not
    read here: a failed request stops; on page 1 a total of 0 stops, and so
    does a positive total with no record; after page 1 a page with no record
    stops; the records are normalised and appended; the run stops when the
    rows have reached the total or the page is short, and advances
    otherwise. *)
Definition page_verdict (total : pyval) (page : Z) (rows : list pyval)
           (response_data : pyval) : res verdict :=
  if is_None response_data then Ret (Stop rows)
  else
    data <- py_get response_data "Data" (VList []) ;;
    nothing_to_do <-
      (if page =? 1 then
         if py_eq_int total 0 then Ret true
         else
           reported <- py_gt_int total 0 ;;
           Ret (reported && negb (truthy data))
       else if 1 <? page then Ret (negb (truthy data))
       else Ret false) ;;
    if (nothing_to_do : bool) then Ret (Stop rows)
    else
      items <- py_iter data ;;
      permits <- process_page items rows ;;
      enough <- py_int_ge (Z.of_nat (List.length permits)) total ;;
      short <- (if (enough : bool) then Ret true
                else
                  n <- py_len data ;;
                  Ret (n <? page_size)) ;;
      if (short : bool) then Ret (Stop permits) else Ret (Advance permits).

(** The run of the protocol for a given total: the state is the page and
    the rows, the total never changes. *)
Fixpoint run_given_total (total : pyval) (fuel : nat) (page : Z)
         (rows : list pyval) : option (res (list pyval)) * list event :=
  match fuel with
  | O => (None, [])
  | S fuel' =>
      let request := Request (build_payload page) in
      match page_verdict total page rows (_make_request (build_payload page))
      with
      | Ret (Stop result) => (Some (Ret result), [request])
      | Raise e => (Some (Raise e), [request])
      | Ret (Advance permits) =>
          if delay_seconds <? 0 then (Some (Raise ValueError), [request])
          else
            let (outcome, later) :=
              run_given_total total fuel' (page + 1) permits in
            (outcome, request :: Sleep delay_seconds :: later)
      end
  end.

(** ** Properties of the date decoder *)

Lemma digit_not_stripped (c : ascii) :
  is_digit c = true -> in_chars "/Date()" c = false.
Proof.
  destruct c as [[] [] [] [] [] [] [] []]; vm_compute; congruence.
Qed.

Lemma digit_not_space (c : ascii) : is_digit c = true -> is_space c = false.
Proof.
  destruct c as [[] [] [] [] [] [] [] []]; vm_compute; congruence.
Qed.

Lemma digit_not_sign (c : ascii) :
  is_digit c = true -> Ascii.eqb c "-" = false /\ Ascii.eqb c "+" = false.
Proof.
  destruct c as [[] [] [] [] [] [] [] []]; vm_compute; split; congruence.
Qed.

(** Characters that are all kept survive [rstrip] when what follows them is
    stripped away entirely. *)
Lemma rstrip_kept_app (drop : ascii -> bool) (keep : ascii -> bool) (t : string) :
  (forall c, keep c = true -> drop c = false) ->
  rstrip drop t = EmptyString ->
  forall s, forallb keep (list_ascii_of_string s) = true ->
            rstrip drop (s ++ t)%string = s.
Proof.
  intros Hkeep Ht s. induction s as [|c s IH]; simpl; intros Hs.
  - exact Ht.
  - apply andb_prop in Hs. destruct Hs as [Hc Hs].
    rewrite (IH Hs). destruct s; [rewrite (Hkeep c Hc)|]; reflexivity.
Qed.

Lemma all_digits_forallb (s : string) :
  all_digits s = forallb is_digit (list_ascii_of_string s).
Proof. induction s as [|c s IH]; simpl; [|rewrite IH]; reflexivity. Qed.

Lemma append_empty_r (s : string) : (s ++ "")%string = s.
Proof. induction s as [|c s IH]; simpl; [|rewrite IH]; reflexivity. Qed.

Lemma strip_wrapper (ds : string) :
  ds <> EmptyString -> all_digits ds = true ->
  strip "/Date()" ("/Date(" ++ ds ++ ")/") = ds.
Proof.
  intros Hne Hds. unfold strip.
  assert (Hl : lstrip (in_chars "/Date()") ("/Date(" ++ ds ++ ")/")
               = (ds ++ ")/")%string).
  { destruct ds as [|c ds]; [congruence|].
    simpl in Hds. apply andb_prop in Hds. destruct Hds as [Hc _].
    cbn -[in_chars]. rewrite (digit_not_stripped c Hc). reflexivity. }
  rewrite Hl. apply rstrip_kept_app with (keep := is_digit).
  - exact digit_not_stripped.
  - reflexivity.
  - rewrite <- all_digits_forallb. exact Hds.
Qed.

Lemma scan_digits_all_digits (ds : string) :
  all_digits ds = true ->
  forall prev acc count,
    ds <> EmptyString \/ prev = AfterDigit ->
    scan_digits ds prev acc count
    = Some (decimal_value acc ds, (count + String.length ds)%nat).
Proof.
  induction ds as [|c ds IH]; simpl; intros Hds prev acc count Hprev.
  - destruct Hprev as [Hne | ->]; [congruence|].
    rewrite Nat.add_0_r. reflexivity.
  - apply andb_prop in Hds. destruct Hds as [Hc Hds].
    rewrite Hc, (IH Hds) by (right; reflexivity).
    rewrite Nat.add_succ_r. reflexivity.
Qed.

(** [int] reads a run of digits as the number it denotes. *)
Lemma py_int_digits (ds : string) :
  ds <> EmptyString -> all_digits ds = true ->
  digits_allowed (String.length ds) = true ->
  py_int ds = Ret (decimal_value 0 ds).
Proof.
  intros Hne Hds Hlen. unfold py_int.
  assert (Hl : lstrip is_space ds = ds).
  { destruct ds as [|c ds]; [congruence|].
    simpl in Hds. apply andb_prop in Hds. destruct Hds as [Hc _].
    simpl. rewrite (digit_not_space c Hc). reflexivity. }
  assert (Hr : rstrip is_space ds = ds).
  { rewrite <- (append_empty_r ds) at 1.
    apply rstrip_kept_app with (keep := is_digit).
    - exact digit_not_space.
    - reflexivity.
    - rewrite <- all_digits_forallb. exact Hds. }
  rewrite Hl, Hr.
  assert (Hs : split_sign ds = (false, ds)).
  { destruct ds as [|c ds]; [congruence|].
    simpl in Hds. apply andb_prop in Hds. destruct Hds as [Hc _].
    simpl. destruct (digit_not_sign c Hc) as [-> ->]. reflexivity. }
  rewrite Hs, (scan_digits_all_digits ds Hds) by (left; exact Hne).
  unfold digits_allowed in Hlen. simpl (0 + _)%nat.
  apply negb_true_iff in Hlen. rewrite Hlen. reflexivity.
Qed.

Lemma py_int_raises_ValueError (s : string) (e : exn) :
  py_int s = Raise e -> e = ValueError.
Proof.
  unfold py_int. destruct (split_sign _) as [negative body].
  destruct (scan_digits _ _ _ _) as [[v count]|]; [|congruence].
  destruct (_ && _)%bool; congruence.
Qed.

Lemma fromtimestamp_in_range (timestamp_ms : Z) :
  in_datetime_range timestamp_ms = true ->
  fromtimestamp_strftime timestamp_ms
  = Ret (strftime_Ymd (local_date timestamp_ms)).
Proof.
  unfold in_datetime_range, fromtimestamp_strftime.
  destruct (local_date timestamp_ms) as [[y m] d]. intros ->. reflexivity.
Qed.

Lemma malformed_date_is_None (s : string) :
  malformed_date s -> _parse_date (VStr s) = Ret VNone.
Proof.
  intros Hs. unfold _parse_date.
  destruct (negb (truthy (VStr s))); [reflexivity|].
  destruct Hs as [Hpre|[e He]].
  - rewrite Hpre. reflexivity.
  - destruct (negb (startswith s "/Date(")); [reflexivity|].
    rewrite He. rewrite (py_int_raises_ValueError _ _ He). reflexivity.
Qed.

(** C4 (as amended). A string [/Date(<digits>)/] whose digits pass the length
    check of [int] and denote a timestamp from the epoch on with a four-digit
    local year decodes to the local calendar date of that millisecond
    timestamp, formatted YYYY-MM-DD. A string that does not start with
    [/Date(], and one that does but whose content, once the characters of
    [/Date()] are stripped from both ends, is not an integer literal, decodes
    to [None] without an error. *)
Theorem parse_date_decodes :
  (forall ds : string,
      ds <> EmptyString -> all_digits ds = true ->
      digits_allowed (String.length ds) = true ->
      in_datetime_range (decimal_value 0 ds) = true ->
      _parse_date (VStr ("/Date(" ++ ds ++ ")/"))
      = Ret (VStr (strftime_Ymd (local_date (decimal_value 0 ds)))))
  /\ (forall s : string, malformed_date s -> _parse_date (VStr s) = Ret VNone).
Proof.
  split.
  - intros ds Hne Hds Hlen Hrange. unfold _parse_date.
    assert (Hpre : startswith ("/Date(" ++ ds ++ ")/") "/Date(" = true)
      by reflexivity.
    rewrite Hpre. cbn [negb truthy String.eqb append Ascii.eqb Bool.eqb].
    change (String "/" (String "D" (String "a" (String "t" (String "e"
             (String "(" (ds ++ ")/")%string))))))
      with ("/Date(" ++ ds ++ ")/")%string.
    rewrite (strip_wrapper ds Hne Hds), (py_int_digits ds Hne Hds Hlen).
    cbn [bind]. rewrite (fromtimestamp_in_range _ Hrange). reflexivity.
  - exact malformed_date_is_None.
Qed.

(** ** Properties of the normaliser *)

(** On a mapping the normaliser is the date decoder followed by the check
    of the two required fields. *)
Lemma process_permit_data_dict (d : pydict) :
  _process_permit_data (VDict d)
  = issued_date <- _parse_date (dict_get d "IssuedDate" VNone) ;;
    if negb (truthy (dict_get d "TypeNumber" VNone))
       || negb (truthy (dict_get d "PermitAddress" VNone))
    then Ret VNone
    else Ret (normalized_record d issued_date).
Proof. reflexivity. Qed.

Lemma supported_date_returns (v : pyval) :
  date_field_supported v = true ->
  exists date, _parse_date v = Ret date
               /\ (date = VNone \/ exists s, date = VStr s).
Proof.
  unfold date_field_supported, _parse_date. intros Hv.
  destruct v as [| b | z | f | s | l | d];
    try (rewrite Hv; eexists; split; [reflexivity | left; reflexivity]).
  destruct (negb (truthy (VStr s)));
    [eexists; split; [reflexivity | left; reflexivity]|].
  destruct (startswith s "/Date("); cbn [negb];
    [|eexists; split; [reflexivity | left; reflexivity]].
  destruct (py_int (strip "/Date()" s)) as [timestamp_ms | e] eqn:Hint.
  - cbn [bind]. rewrite (fromtimestamp_in_range _ Hv). cbn.
    eexists; split; [reflexivity | right; eexists; reflexivity].
  - rewrite (py_int_raises_ValueError _ _ Hint). cbn.
    eexists; split; [reflexivity | left; reflexivity].
Qed.

(** X21. For every raw record on which the decoding of
    [IssuedDate] returns: when [TypeNumber] or [PermitAddress] is absent or
    falsy the normaliser returns no record, and when both are truthy it
    returns a record whose [permit_number] and [address] are the source
    values. *)
Theorem required_fields_decide (d : pydict) (issued_date : pyval) :
  _parse_date (dict_get d "IssuedDate" VNone) = Ret issued_date ->
  (truthy (dict_get d "TypeNumber" VNone) = false
   \/ truthy (dict_get d "PermitAddress" VNone) = false ->
   _process_permit_data (VDict d) = Ret VNone)
  /\ (truthy (dict_get d "TypeNumber" VNone) = true ->
      truthy (dict_get d "PermitAddress" VNone) = true ->
      exists record,
        _process_permit_data (VDict d) = Ret (VDict record)
        /\ dict_get record "permit_number" VNone = dict_get d "TypeNumber" VNone
        /\ dict_get record "address" VNone = dict_get d "PermitAddress" VNone).
Proof.
  intros Hdate. rewrite process_permit_data_dict, Hdate. cbn [bind]. split.
  - intros [-> | ->]; [|rewrite orb_true_r]; reflexivity.
  - intros -> ->. eexists. repeat split; reflexivity.
Qed.

(** X22. For every raw record whose [IssuedDate] is absent,
    falsy, or a string that lacks the prefix, holds no integer literal, or
    holds a timestamp from the epoch on with a four-digit local year,
    normalisation raises no exception; a malformed date string gives a
    record with an absent [issued_date] when both required fields are
    truthy. *)
Theorem normalization_does_not_raise (d : pydict) :
  date_field_supported (dict_get d "IssuedDate" VNone) = true ->
  (exists out, _process_permit_data (VDict d) = Ret out)
  /\ (forall s,
         dict_get d "IssuedDate" VNone = VStr s -> malformed_date s ->
         truthy (dict_get d "TypeNumber" VNone) = true ->
         truthy (dict_get d "PermitAddress" VNone) = true ->
         _process_permit_data (VDict d) = Ret (normalized_record d VNone)).
Proof.
  intros Hv. split.
  - destruct (supported_date_returns _ Hv) as [date [Hdate _]].
    rewrite process_permit_data_dict, Hdate. cbn [bind].
    destruct (_ || _)%bool; eexists; reflexivity.
  - intros s Hs Hbad Hnum Haddr.
    rewrite process_permit_data_dict, Hs.
    rewrite (malformed_date_is_None s Hbad). cbn [bind].
    rewrite Hnum, Haddr. reflexivity.
Qed.

Lemma process_permit_data_shape (permit_json out : pyval) :
  _process_permit_data permit_json = Ret out -> truthy out = true ->
  exists record, out = VDict record /\ dict_keys record = record_keys.
Proof.
  destruct permit_json as [| b | z | f | s | l | d]; try discriminate.
  rewrite process_permit_data_dict.
  destruct (_parse_date _) as [date | e]; [|discriminate]. cbn [bind].
  destruct (_ || _)%bool; intros [= <-]; [discriminate|].
  intros _. eexists. split; reflexivity.
Qed.

(** ** Properties of the fetch loop *)

Lemma process_page_kept (items : list pyval) :
  forall acc out,
    process_page items acc = Ret out -> out = acc ++ flat_map keep_row items.
Proof.
  induction items as [|permit_json rest IH]; cbn [process_page flat_map];
    intros acc out H.
  - injection H as <-. rewrite app_nil_r. reflexivity.
  - unfold keep_row at 1.
    destruct (_process_permit_data permit_json) as [processed|e];
      [|discriminate].
    cbn [bind] in H. apply IH in H. subst out.
    destruct (truthy processed); [rewrite <- app_assoc|]; reflexivity.
Qed.

Lemma process_page_rows (items rows : list pyval) :
  Forall2 normalizes_to items rows ->
  forall acc, process_page items acc = Ret (acc ++ rows).
Proof.
  induction 1 as [|permit_json row items rows [Hrow Htrue] _ IH];
    intros acc; cbn [process_page].
  - rewrite app_nil_r. reflexivity.
  - rewrite Hrow. cbn [bind]. rewrite Htrue, IH, <- app_assoc. reflexivity.
Qed.

Lemma kept_rows_dict (d : pydict) (items : list pyval) :
  py_iter (dict_get d "Data" (VList [])) = Ret items ->
  kept_rows (VDict d) = flat_map keep_row items.
Proof. unfold kept_rows. cbn [py_get]. intros ->. reflexivity. Qed.

(** What a pass that returns can have done: stopped with what it had, or
    processed the page and then stopped or gone on. *)
Lemma page_step_inv (st : session) (response_data : pyval) (c : control) :
  page_step st response_data = Ret c ->
  c = Break (all_permits st)
  \/ exists d,
      response_data = VDict d
      /\ (c = Break (all_permits st ++ kept_rows response_data)
          \/ c = Continue
                 {| current_page := current_page st + 1;
                    all_permits := all_permits st ++ kept_rows response_data;
                    total_records :=
                      if current_page st =? 1
                      then dict_get d "Total" (VInt 0)
                      else total_records st |}).
Proof.
  unfold page_step.
  destruct response_data as [| b | z | f | s | l | d]; cbn [is_None py_get bind];
    try discriminate.
  - intros [= <-]. left. reflexivity.
  - destruct (_ && _)%bool; [intros [= <-]; left; reflexivity|].
    set (total := if current_page st =? 1
                  then dict_get d "Total" (VInt 0) else total_records st).
    replace (if current_page st =? 1
             then Ret (dict_get d "Total" (VInt 0)) else Ret (total_records st))
      with (Ret total) by (unfold total; destruct (_ =? _); reflexivity).
    cbn [bind].
    match goal with |- bind ?m _ = _ -> _ => destruct m as [[]|e] end;
      cbn [bind]; try discriminate.
    { intros [= <-]. left. reflexivity. }
    destruct (py_iter _) as [items|e] eqn:Hitems; cbn [bind]; [|discriminate].
    destruct (process_page items (all_permits st)) as [permits|e] eqn:Hpage;
      cbn [bind]; [|discriminate].
    apply process_page_kept in Hpage.
    rewrite <- (kept_rows_dict d items Hitems) in Hpage. subst permits.
    destruct (py_int_ge _ total) as [enough|e]; cbn [bind]; [|discriminate].
    match goal with |- bind ?m _ = _ -> _ => destruct m as [[]|e] end;
      cbn [bind]; try discriminate;
      intros [= <-]; right; exists d; (split; [reflexivity|]); auto.
Qed.

Lemma loop_body_requests (st : session) :
  requests (snd (loop_body st)) = [build_payload (current_page st)].
Proof.
  unfold loop_body.
  destruct (page_step st _) as [[result|next]|e]; [| destruct (_ <? _) |];
    reflexivity.
Qed.

Lemma loop_body_Continue (st next : session) (events : list event) :
  loop_body st = (Ret (Continue next), events) ->
  page_step st (_make_request (build_payload (current_page st)))
  = Ret (Continue next)
  /\ events = [Request (build_payload (current_page st)); Sleep delay_seconds].
Proof.
  unfold loop_body.
  destruct (page_step st _) as [[result|next']|e]; try discriminate.
  destruct (_ <? _); [discriminate|]. intros [= <- <-]. split; reflexivity.
Qed.

Lemma loop_body_Continue_state (st next : session) (events : list event) :
  loop_body st = (Ret (Continue next), events) ->
  exists d,
    _make_request (build_payload (current_page st)) = VDict d
    /\ current_page next = current_page st + 1
    /\ all_permits next
       = all_permits st
         ++ kept_rows (_make_request (build_payload (current_page st)))
    /\ total_records next
       = (if current_page st =? 1
          then dict_get d "Total" (VInt 0) else total_records st).
Proof.
  intros H. apply loop_body_Continue in H. destruct H as [H _].
  apply page_step_inv in H. destruct H as [H | [d [Hd [H | H]]]];
    try discriminate.
  injection H as ->. exists d. cbn. auto.
Qed.

Lemma requests_app (t1 t2 : list event) :
  requests (t1 ++ t2) = requests t1 ++ requests t2.
Proof. unfold requests. apply flat_map_app. Qed.

Lemma fetch_loop_after_pages (k : nat) :
  forall st final trace fuel,
    run_pages k st = Some (final, trace) ->
    fetch_loop (k + fuel) st
    = (fst (fetch_loop fuel final), trace ++ snd (fetch_loop fuel final)).
Proof.
  induction k as [|k IH]; cbn [run_pages]; intros st final trace fuel H.
  - injection H as <- <-. cbn. destruct (fetch_loop fuel st); reflexivity.
  - cbn [Nat.add fetch_loop].
    destruct (loop_body st) as [[[result|next]|e] events]; try discriminate.
    destruct (run_pages k next) as [[final' later]|] eqn:Hrun; [|discriminate].
    injection H as <- <-. rewrite (IH _ _ _ fuel Hrun).
    cbn. rewrite app_assoc. reflexivity.
Qed.

Lemma pages_succ (k : nat) : pages (S k) = pages k ++ [Z.of_nat (S k)].
Proof. unfold pages. rewrite seq_S, map_app. reflexivity. Qed.

(** After [k] passes that all went on: the page reached, the rows
    accumulated, and the total in use. *)
Lemma run_pages_state (k : nat) :
  forall st final trace,
    run_pages k st = Some (final, trace) ->
    current_page final = current_page st + Z.of_nat k
    /\ all_permits final
       = all_permits st
         ++ flat_map (fun i => kept_rows (_make_request
                                 (build_payload (current_page st + Z.of_nat i))))
              (seq 0 k)
    /\ requests trace
       = map (fun i => build_payload (current_page st + Z.of_nat i)) (seq 0 k).
Proof.
  induction k as [|k IH]; cbn [run_pages]; intros st final trace H.
  - injection H as <- <-. cbn. rewrite app_nil_r. split; [lia | auto].
  - destruct (loop_body st) as [[[result|next]|e] events] eqn:Hbody;
      try discriminate.
    destruct (run_pages k next) as [[final' later]|] eqn:Hrun; [|discriminate].
    injection H as <- <-.
    pose proof (loop_body_requests st) as Hreq. rewrite Hbody in Hreq.
    cbn [snd] in Hreq.
    destruct (loop_body_Continue_state _ _ _ Hbody) as [d [_ [Hpage [Hall _]]]].
    destruct (IH _ _ _ Hrun) as [Hp [Ha Hr]].
    rewrite Hpage in Hp, Ha, Hr. rewrite Hall in Ha.
    assert (Hshift : forall i, current_page st + 1 + Z.of_nat i
                               = current_page st + Z.of_nat (S i))
      by (intros; lia).
    rewrite requests_app, Hreq, Hr, Ha.
    cbn [seq flat_map map]. rewrite <- seq_shift.
    change (Z.of_nat 0) with 0. rewrite Z.add_0_r, map_map, <- app_assoc.
    rewrite (flat_map_concat_map _ (map S _)), map_map,
      <- flat_map_concat_map.
    split; [lia|]. split.
    + f_equal. f_equal. apply flat_map_ext. intros i. rewrite Hshift.
      reflexivity.
    + cbn. f_equal. apply map_ext. intros i. rewrite Hshift. reflexivity.
Qed.

Lemma run_pages_initial (k : nat) (final : session) (trace : list event) :
  run_pages k initial_session = Some (final, trace) ->
  current_page final = Z.of_nat (S k)
  /\ all_permits final
     = flat_map (fun page => kept_rows (_make_request (build_payload page)))
         (pages k)
  /\ requests trace = map build_payload (pages k).
Proof.
  intros H. apply run_pages_state in H. destruct H as [Hp [Ha Hr]].
  cbn [initial_session current_page all_permits app] in Hp, Ha, Hr.
  assert (Hshift : forall i, 1 + Z.of_nat i = Z.of_nat (S i)) by (intros; lia).
  unfold pages. rewrite Hp, Ha, Hr, map_map.
  rewrite (flat_map_concat_map _ (map _ _)), map_map, <- flat_map_concat_map.
  split; [lia|]. split.
  - apply flat_map_ext. intros i. rewrite Hshift. reflexivity.
  - apply map_ext. intros i. rewrite Hshift. reflexivity.
Qed.

(** A pass over a page whose records are all processed without an
    exception. *)
Lemma page_step_processed
      (st : session) (d : pydict) (items permits : list pyval) (t : Z) :
  dict_get d "Data" (VList []) = VList items -> items <> [] ->
  process_page items (all_permits st) = Ret permits ->
  (if current_page st =? 1
   then dict_get d "Total" (VInt 0) else total_records st) = VInt t ->
  (current_page st = 1 -> t <> 0) ->
  page_step st (VDict d)
  = Ret (if (t <=? Z.of_nat (List.length permits))
            || (Z.of_nat (List.length items) <? page_size)
         then Break permits
         else Continue {| current_page := current_page st + 1;
                          all_permits := permits;
                          total_records := VInt t |}).
Proof.
  intros Hdata Hitems Hpage Htotal Hfirst. unfold page_step.
  cbn [is_None py_get bind]. rewrite Hdata.
  assert (Htruthy : truthy (VList items) = true)
    by (destruct items; [congruence | reflexivity]).
  rewrite Htruthy. cbn [negb andb].
  replace (if current_page st =? 1
           then Ret (dict_get d "Total" (VInt 0)) else Ret (total_records st))
    with (Ret (A := pyval) (VInt t))
    by (rewrite <- Htotal; destruct (_ =? _); reflexivity).
  cbn [bind].
  assert (Hstop : (if current_page st =? 1
                   then if py_eq_int (VInt t) 0 then Ret true
                        else reported <- py_gt_int (VInt t) 0 ;;
                             Ret (reported && false)
                   else Ret false) = Ret false).
  { destruct (current_page st =? 1) eqn:Hcp; [|reflexivity].
    apply Z.eqb_eq in Hcp. specialize (Hfirst Hcp).
    unfold py_eq_int, py_gt_int, compare_int. cbn [bind].
    destruct (0 ?= t) eqn:Hcmp; try (rewrite andb_false_r; reflexivity).
    apply Z.compare_eq in Hcmp. congruence. }
  rewrite Hstop. cbn [bind py_iter]. rewrite Hpage. cbn [bind].
  unfold py_int_ge, compare_int. cbn [bind py_len].
  rewrite Z.leb_compare, (Z.compare_antisym _ t).
  destruct (Z.of_nat (List.length permits) ?= t); cbn [CompOpp orb bind];
    try reflexivity.
  destruct (_ <? _); reflexivity.
Qed.

Lemma fetch_loop_requests (fuel : nat) :
  forall st, exists m,
    requests (snd (fetch_loop fuel st))
    = map (fun i => build_payload (current_page st + Z.of_nat i)) (seq 0 m).
Proof.
  induction fuel as [|fuel IH]; intros st; cbn [fetch_loop].
  - exists 0%nat. reflexivity.
  - pose proof (loop_body_requests st) as Hreq.
    destruct (loop_body st) as [[[result|next]|e] events] eqn:Hbody;
      cbn [snd] in Hreq |- *.
    + exists 1%nat. cbn. rewrite Z.add_0_r. exact Hreq.
    + destruct (loop_body_Continue_state _ _ _ Hbody) as [d [_ [Hpage _]]].
      destruct (IH next) as [m Hm].
      destruct (fetch_loop fuel next) as [outcome later]. cbn [snd] in Hm |- *.
      exists (S m). rewrite requests_app, Hreq, Hm, Hpage.
      cbn [seq map]. rewrite <- seq_shift, map_map.
      change (Z.of_nat 0) with 0. rewrite Z.add_0_r. cbn. f_equal.
      apply map_ext. intros i. f_equal. lia.
    + exists 1%nat. cbn. rewrite Z.add_0_r. exact Hreq.
Qed.

Lemma nth_error_map_seq {A : Type} (f : nat -> A) (m : nat) :
  forall start i x,
    nth_error (map f (seq start m)) i = Some x -> x = f (start + i)%nat.
Proof.
  induction m as [|m IH]; intros start [|i] x; cbn; try discriminate.
  - intros [= <-]. f_equal. lia.
  - intros H. apply IH in H. rewrite H. f_equal. lia.
Qed.

Lemma build_payload_for_page (page : Z) :
  payload_for_page page (build_payload page).
Proof.
  unfold payload_for_page. repeat (split; [reflexivity|]).
  intros field Hin Hnot. cbn [payload_fields In] in Hin.
  repeat (destruct Hin as [<- | Hin];
          [try reflexivity; exfalso; apply Hnot; cbn; tauto|]).
  contradiction.
Qed.

Lemma kept_rows_shape (response_data : pyval) :
  Forall (row_with_keys record_keys) (kept_rows response_data).
Proof.
  unfold kept_rows. destruct (py_get _ _ _) as [data|e]; [|constructor].
  destruct (py_iter data) as [items|e]; [|constructor].
  induction items as [|permit_json rest IH]; cbn [flat_map]; [constructor|].
  apply Forall_app. split; [|exact IH]. unfold keep_row.
  destruct (_process_permit_data permit_json) as [processed|e] eqn:Hrow;
    [|constructor].
  destruct (truthy processed) eqn:Htrue; constructor; [|constructor].
  exact (process_permit_data_shape _ _ Hrow Htrue).
Qed.

Lemma fetch_loop_shape (fuel : nat) :
  forall st result trace,
    Forall (row_with_keys record_keys) (all_permits st) ->
    fetch_loop fuel st = (Some (Ret result), trace) ->
    Forall (row_with_keys record_keys) result.
Proof.
  induction fuel as [|fuel IH]; intros st result trace Hall; cbn [fetch_loop];
    [discriminate|].
  destruct (loop_body st) as [[[r|next]|e] events] eqn:Hbody.
  - intros [= <- <-]. unfold loop_body in Hbody.
    destruct (page_step st _) as [[r'|next]|e] eqn:Hstep;
      [| destruct (_ <? _); discriminate | discriminate].
    injection Hbody as <- _. apply page_step_inv in Hstep.
    destruct Hstep as [H | [d [_ [H | H]]]]; try discriminate;
      injection H as ->; [exact Hall|].
    apply Forall_app. split; [exact Hall | apply kept_rows_shape].
  - destruct (loop_body_Continue_state _ _ _ Hbody) as [d [_ [_ [Hnext _]]]].
    destruct (fetch_loop fuel next) as [outcome later] eqn:Hloop.
    intros [= -> <-]. apply (IH next result later); [|exact Hloop].
    rewrite Hnext. apply Forall_app. split; [exact Hall | apply kept_rows_shape].
  - discriminate.
Qed.

(** ** The claims about the fetch *)

(** C1. Page 1 holds [page_size] raw records and reports a total of
    [page_size + k] with [0 < k < page_size], page 2 holds [k] records, every
    record passes normalisation and the delay is a valid sleep length: the
    run issues exactly two requests, for page 1 and then page 2, with the
    sleep between them, and returns the [page_size + k] rows in page order
    and, within a page, in row order. *)
Theorem two_pages_in_order
        (d1 d2 : pydict) (items1 items2 rows1 rows2 : list pyval)
        (k : Z) (fuel : nat) :
  0 < k < page_size ->
  0 <= delay_seconds ->
  _make_request (build_payload 1) = VDict d1 ->
  dict_get d1 "Data" (VList []) = VList items1 ->
  Z.of_nat (List.length items1) = page_size ->
  dict_get d1 "Total" (VInt 0) = VInt (page_size + k) ->
  _make_request (build_payload 2) = VDict d2 ->
  dict_get d2 "Data" (VList []) = VList items2 ->
  Z.of_nat (List.length items2) = k ->
  Forall2 normalizes_to items1 rows1 ->
  Forall2 normalizes_to items2 rows2 ->
  (2 <= fuel)%nat ->
  fetch_permits_for_date_range fuel
  = (Some (Ret (rows1 ++ rows2)),
     [Request (build_payload 1); Sleep delay_seconds;
      Request (build_payload 2)])
  /\ Z.of_nat (List.length (rows1 ++ rows2)) = page_size + k
  /\ dict_get (build_payload 1) "page" VNone = VInt 1
  /\ dict_get (build_payload 2) "page" VNone = VInt 2.
Proof.
  intros Hk Hdelay Hr1 Hd1 Hl1 Ht1 Hr2 Hd2 Hl2 Hrows1 Hrows2 Hfuel.
  pose proof (Forall2_length Hrows1) as Hn1.
  pose proof (Forall2_length Hrows2) as Hn2.
  split; [|split; [rewrite length_app; lia | split; reflexivity]].
  destruct fuel as [|[|fuel]]; try lia.
  unfold fetch_permits_for_date_range. cbn [fetch_loop].
  unfold loop_body at 1. cbn [initial_session current_page]. rewrite Hr1.
  rewrite (page_step_processed _ d1 items1 rows1 (page_size + k));
    cbn [current_page all_permits total_records Z.eqb Pos.eqb app];
    try assumption; try lia.
  2:{ intros ->. cbn in Hl1. lia. }
  2:{ apply (process_page_rows _ _ Hrows1). }
  replace (page_size + k <=? Z.of_nat (List.length rows1)) with false
    by (symmetry; apply Z.leb_gt; lia).
  replace (Z.of_nat (List.length items1) <? page_size) with false
    by (symmetry; apply Z.ltb_ge; lia).
  cbn [orb]. replace (delay_seconds <? 0) with false
    by (symmetry; apply Z.ltb_ge; lia).
  cbn [fetch_loop]. unfold loop_body. cbn [current_page].
  change (current_page initial_session + 1) with 2. rewrite Hr2.
  rewrite (page_step_processed _ d2 items2 (rows1 ++ rows2) (page_size + k));
    cbn [current_page all_permits total_records Z.eqb Pos.eqb];
    try assumption; try reflexivity; try discriminate.
  2:{ intros ->. cbn in Hl2. lia. }
  2:{ apply (process_page_rows _ _ Hrows2). }
  replace (page_size + k <=? Z.of_nat (List.length (rows1 ++ rows2))) with true
    by (symmetry; apply Z.leb_le; rewrite length_app; lia).
  reflexivity.
Qed.



(** C6. When the first page reports a total equal to 0 (the default when
    the envelope has no total), the run issues exactly one request and
    returns the empty list as its result. *)
Theorem zero_total_is_empty_result (d : pydict) (fuel : nat) :
  _make_request (build_payload 1) = VDict d ->
  py_eq_int (dict_get d "Total" (VInt 0)) 0 = true ->
  (1 <= fuel)%nat ->
  fetch_permits_for_date_range fuel
  = (Some (Ret []), [Request (build_payload 1)]).
Proof.
  intros Hresp Hzero Hfuel. destruct fuel as [|fuel]; [lia|].
  unfold fetch_permits_for_date_range. cbn [fetch_loop].
  unfold loop_body. cbn [initial_session current_page]. rewrite Hresp.
  unfold page_step.
  cbn [is_None py_get bind current_page all_permits Z.ltb Z.compare Pos.compare].
  rewrite andb_false_r.
  change (current_page initial_session =? 1) with true.
  cbn [bind]. rewrite Hzero. reflexivity.
Qed.

(** C7 (as amended). Page 1 holds exactly [page_size] raw records and
    reports a total of [page_size]. When every record passes normalisation
    the run issues exactly one request and returns [page_size] rows. The
    comparison with the total counts the rows kept, not the raw records: when
    the page is processed and fewer than [page_size] rows are kept, the run
    goes on to request page 2. *)
Theorem full_page_with_matching_total (d : pydict) (items : list pyval) :
  _make_request (build_payload 1) = VDict d ->
  dict_get d "Data" (VList []) = VList items ->
  Z.of_nat (List.length items) = page_size ->
  dict_get d "Total" (VInt 0) = VInt page_size ->
  (forall rows fuel,
      Forall2 normalizes_to items rows -> (1 <= fuel)%nat ->
      fetch_permits_for_date_range fuel
      = (Some (Ret rows), [Request (build_payload 1)])
      /\ Z.of_nat (List.length rows) = page_size)
  /\ (forall permits fuel,
         process_page items [] = Ret permits ->
         Z.of_nat (List.length permits) < page_size ->
         0 <= delay_seconds -> (2 <= fuel)%nat ->
         exists outcome later,
           fetch_permits_for_date_range fuel
           = (outcome,
              Request (build_payload 1) :: Sleep delay_seconds
              :: Request (build_payload 2) :: later)).
Proof.
  intros Hresp Hdata Hlen Htotal. split.
  - intros rows fuel Hrows Hfuel.
    pose proof (Forall2_length Hrows) as Hn. split; [|lia].
    destruct fuel as [|fuel]; [lia|].
    unfold fetch_permits_for_date_range. cbn [fetch_loop].
    unfold loop_body. cbn [initial_session current_page]. rewrite Hresp.
    destruct items as [|item items].
    + inversion Hrows; subst. unfold page_step.
      cbn [is_None py_get bind current_page]. rewrite Hdata, Htotal, <- Hlen.
      reflexivity.
    + assert (Hpos : 0 < page_size) by (cbn in Hlen; lia).
      rewrite (page_step_processed _ d (item :: items) rows page_size);
        cbn [current_page all_permits total_records Z.eqb Pos.eqb app];
        try assumption; try discriminate; try lia.
      * replace (page_size <=? Z.of_nat (List.length rows)) with true
          by (symmetry; apply Z.leb_le; lia).
        reflexivity.
      * apply (process_page_rows _ _ Hrows).
  - intros permits fuel Hpage Hshort Hdelay Hfuel.
    destruct fuel as [|[|fuel]]; try lia.
    assert (Hitems : items <> []) by (intros ->; cbn in Hlen; lia).
    unfold fetch_permits_for_date_range. cbn [fetch_loop].
    unfold loop_body at 1. cbn [initial_session current_page]. rewrite Hresp.
    rewrite (page_step_processed _ d items permits page_size);
      cbn [current_page all_permits total_records Z.eqb Pos.eqb app];
      try assumption; try lia.
    replace (page_size <=? Z.of_nat (List.length permits)) with false
      by (symmetry; apply Z.leb_gt; lia).
    replace (Z.of_nat (List.length items) <? page_size) with false
      by (symmetry; apply Z.ltb_ge; lia).
    cbn [orb]. replace (delay_seconds <? 0) with false
      by (symmetry; apply Z.ltb_ge; lia).
    pose proof (loop_body_requests
                  {| current_page := 2; all_permits := permits;
                     total_records := VInt page_size |}) as Hreq.
    cbn [fetch_loop]. change (current_page initial_session + 1) with 2.
    unfold loop_body in Hreq |- *. cbn [current_page] in Hreq |- *.
    destruct (page_step _ _) as [[result|next]|e];
      [| destruct (delay_seconds <? 0) |];
      try destruct (fetch_loop fuel next) as [outcome later];
      eexists; eexists; reflexivity.
Qed.

(** C9. Every request of a run carries the payload of its page: the
    [i]-th request (counted from 1) has page [i], the configured page size,
    the two fixed filter values, the two dates of the caller, and the empty
    string in every other field. *)
Theorem every_request_selects_its_page
        (fuel i : nat) (payload : pydict) :
  nth_error (requests (snd (fetch_permits_for_date_range fuel))) i
  = Some payload ->
  payload_for_page (Z.of_nat i + 1) payload.
Proof.
  unfold fetch_permits_for_date_range.
  destruct (fetch_loop_requests fuel initial_session) as [m ->].
  intros H. apply nth_error_map_seq in H. subst payload.
  cbn [initial_session current_page Nat.add].
  replace (Z.of_nat i + 1) with (1 + Z.of_nat i) by lia.
  apply build_payload_for_page.
Qed.

(** C10. A record the normaliser produces is a mapping with the six keys
    [permit_number], [address], [contractor], [issued_date], [permit_type],
    [status], in that order; every row of a fetch result has them, and the
    header taken from the first row is the key list of every row. *)
Theorem rows_share_one_key_list :
  (forall permit_json out,
      _process_permit_data permit_json = Ret out -> out <> VNone ->
      row_with_keys record_keys out)
  /\ (forall fuel result trace,
         fetch_permits_for_date_range fuel = (Some (Ret result), trace) ->
         Forall (row_with_keys record_keys) result
         /\ forall header,
             fieldnames result = Some header ->
             Forall (row_with_keys header) result).
Proof.
  split.
  - intros permit_json out Hout Hnot.
    apply (process_permit_data_shape _ _ Hout).
    destruct permit_json as [| b | z | f | s | l | d]; try discriminate.
    rewrite process_permit_data_dict in Hout.
    destruct (_parse_date _) as [date|e]; [|discriminate]. cbn [bind] in Hout.
    destruct (_ || _)%bool; injection Hout as <-; [congruence | reflexivity].
  - intros fuel result trace Hfetch.
    assert (Hall : Forall (row_with_keys record_keys) result).
    { apply (fetch_loop_shape fuel initial_session result trace);
        [constructor | exact Hfetch]. }
    split; [exact Hall|]. intros header Hheader.
    destruct result as [|first rest]; [discriminate|].
    inversion Hall as [|? ? [record [-> Hkeys]] _]; subst.
    cbn in Hheader. injection Hheader as <-. rewrite Hkeys. exact Hall.
Qed.

(** *** The total in use *)

Lemma dict_get_without_total (d : pydict) (key : string) (default : pyval) :
  String.eqb key "Total" = false ->
  dict_get (filter (fun kv => negb (String.eqb (fst kv) "Total")) d) key default
  = dict_get d key default.
Proof.
  intros Hkey. induction d as [|[k v] d IH]; [reflexivity|].
  cbn [filter fst dict_get]. destruct (String.eqb k "Total") eqn:Hk; cbn [negb].
  - apply String.eqb_eq in Hk. subst k. rewrite String.eqb_sym, Hkey. exact IH.
  - cbn [dict_get]. rewrite IH. reflexivity.
Qed.

(** After the first page a pass never reads the total of its response. *)
Lemma page_step_ignores_total (st : session) (response_data : pyval) :
  current_page st <> 1 ->
  page_step st (drop_total response_data) = page_step st response_data.
Proof.
  intros Hpage. apply Z.eqb_neq in Hpage.
  destruct response_data as [| b | z | f | s | l | d]; try reflexivity.
  unfold page_step, drop_total, kept_rows.
  cbn [is_None py_get bind]. rewrite Hpage.
  rewrite dict_get_without_total by reflexivity. reflexivity.
Qed.

(** Once the loop has gone past page 1, the total in use is the one of the
    first response. *)
Lemma run_pages_total (k : nat) :
  forall st final trace,
    run_pages k st = Some (final, trace) ->
    1 <= current_page st ->
    total_records final
    = match k with
      | O => total_records st
      | S _ =>
          if current_page st =? 1
          then match _make_request (build_payload 1) with
               | VDict d => dict_get d "Total" (VInt 0)
               | _ => VNone
               end
          else total_records st
      end.
Proof.
  induction k as [|k IH]; cbn [run_pages]; intros st final trace H Hpage.
  - injection H as <- _. reflexivity.
  - destruct (loop_body st) as [[[result|next]|e] events] eqn:Hbody;
      try discriminate.
    destruct (run_pages k next) as [[final' later]|] eqn:Hrun; [|discriminate].
    injection H as <- _.
    destruct (loop_body_Continue_state _ _ _ Hbody) as [d [Hd [Hp [_ Ht]]]].
    rewrite (IH _ _ _ Hrun) by lia.
    assert (Hnext : (current_page next =? 1) = false)
      by (apply Z.eqb_neq; lia).
    rewrite Hnext, Ht.
    destruct (current_page st =? 1) eqn:Hfirst.
    + apply Z.eqb_eq in Hfirst. rewrite Hfirst in Hd. rewrite Hd.
      destruct k; reflexivity.
    + destruct k; reflexivity.
Qed.

Lemma run_pages_initial_total (k : nat) (final : session) (trace : list event) :
  run_pages (S k) initial_session = Some (final, trace) ->
  exists d,
    _make_request (build_payload 1) = VDict d
    /\ total_records final = dict_get d "Total" (VInt 0).
Proof.
  intros H. pose proof (run_pages_total _ _ _ _ H) as Ht.
  cbn [run_pages] in H.
  destruct (loop_body initial_session) as [[[result|next]|e] events] eqn:Hbody;
    try discriminate.
  destruct (loop_body_Continue_state _ _ _ Hbody) as [d [Hd _]].
  cbn [initial_session current_page] in Hd, Ht.
  exists d. split; [exact Hd|]. rewrite Ht by lia. rewrite Hd. reflexivity.
Qed.

(** ** Further properties of the request *)

(** X1. [_make_request] returns [None] exactly when the request failed
    (transport, status 400..599, or a body that is not JSON) or the body is
    the JSON [null]; a decodable body that comes with any other status is
    returned as it is. *)
Theorem make_request_contract (payload : pydict) :
  (_make_request payload = VNone
   <-> page_request_fails (session_post payload)
       \/ exists status_code,
           session_post payload = Response status_code (Some VNone))
  /\ (forall status_code data,
         session_post payload = Response status_code (Some data) ->
         ~ 400 <= status_code < 600 ->
         _make_request payload = data).
Proof.
  unfold _make_request, page_request_fails. split; [split|].
  - destruct (session_post payload) as [|status_code [data|]] eqn:Hpost.
    + intros _. left. left. reflexivity.
    + destruct ((400 <=? status_code) && (status_code <? 600)) eqn:Hstatus.
      * intros _. left. right. left. exists status_code, (Some data).
        apply andb_true_iff in Hstatus. destruct Hstatus as [H1 H2].
        apply Z.leb_le in H1. apply Z.ltb_lt in H2. split; [reflexivity | lia].
      * intros ->. right. exists status_code. reflexivity.
    + intros _. left. right. right. exists status_code. reflexivity.
  - intros [[-> | [[status_code [body [-> Hstatus]]] | [status_code ->]]]
           | [status_code ->]].
    + reflexivity.
    + replace ((400 <=? status_code) && (status_code <? 600)) with true;
        [reflexivity|].
      symmetry. apply andb_true_iff.
      split; [apply Z.leb_le | apply Z.ltb_lt]; lia.
    + destruct (_ && _)%bool; reflexivity.
    + destruct (_ && _)%bool; reflexivity.
  - intros status_code data -> Hstatus.
    destruct ((400 <=? status_code) && (status_code <? 600)) eqn:Hrange;
      [|reflexivity].
    apply andb_true_iff in Hrange. destruct Hrange as [H1 H2].
    apply Z.leb_le in H1. apply Z.ltb_lt in H2. lia.
Qed.

(** ** Further properties of the date decoder *)

Lemma parse_date_None_or_str (v out : pyval) :
  _parse_date v = Ret out -> out = VNone \/ exists s, out = VStr s.
Proof.
  unfold _parse_date. destruct (negb (truthy v)); [intros [= <-]; auto|].
  destruct v as [| b | z | f | s | l | d]; try discriminate.
  destruct (negb (startswith s "/Date(")); [intros [= <-]; auto|].
  destruct (py_int _) as [timestamp_ms|[]]; cbn [bind except_ValueError_TypeError];
    try discriminate; try (intros [= <-]; auto).
  destruct (fromtimestamp_strftime timestamp_ms) as [formatted|[]];
    cbn [bind except_ValueError_TypeError];
    try discriminate; intros [= <-]; eauto.
Qed.

(** X2. The only exceptions that leave [_parse_date] are [AttributeError],
    for a truthy value that is not a string, and whatever the platform raises
    for a timestamp outside the range of [datetime] other than [ValueError]
    and [TypeError], which the [except] clause turns into [None]. *)
Theorem parse_date_escapes (v : pyval) (e : exn) :
  _parse_date v = Raise e ->
  (e = AttributeError /\ truthy v = true /\ forall s, v <> VStr s)
  \/ (exists s timestamp_ms,
         v = VStr s
         /\ startswith s "/Date(" = true
         /\ py_int (strip "/Date()" s) = Ret timestamp_ms
         /\ in_datetime_range timestamp_ms = false
         /\ fromtimestamp_elsewhere timestamp_ms = Raise e
         /\ e <> ValueError /\ e <> TypeError).
Proof.
  unfold _parse_date. destruct (truthy v) eqn:Htruthy; cbn [negb];
    [|discriminate].
  destruct v as [| b | z | f | s | l | d];
    try (intros [= <-]; left; repeat split; discriminate).
  destruct (startswith s "/Date(") eqn:Hprefix; cbn [negb]; [|discriminate].
  destruct (py_int (strip "/Date()" s)) as [timestamp_ms|e'] eqn:Hint.
  - cbn [bind]. unfold fromtimestamp_strftime.
    pose proof (eq_refl (in_datetime_range timestamp_ms)) as Hrange.
    unfold in_datetime_range at 2 in Hrange.
    destruct (local_date timestamp_ms) as [[y m] d].
    destruct ((0 <=? timestamp_ms) && (1000 <=? y) && (y <=? 9999));
      [discriminate|].
    destruct (fromtimestamp_elsewhere timestamp_ms) as [formatted|e0] eqn:Hrun;
      [discriminate|].
    intros H. right. exists s, timestamp_ms.
    destruct e0; cbn in H; try discriminate; injection H as <-;
      repeat split; try assumption; try reflexivity; discriminate.
  - rewrite (py_int_raises_ValueError _ _ Hint). discriminate.
Qed.

Lemma lstrip_all_dropped (drop : ascii -> bool) (t : string) :
  forallb drop (list_ascii_of_string t) = true -> lstrip drop t = EmptyString.
Proof.
  induction t as [|c t IH]; cbn; [reflexivity|].
  intros H. apply andb_prop in H. destruct H as [-> H]. exact (IH H).
Qed.

Lemma rstrip_all_dropped (drop : ascii -> bool) (t : string) :
  forallb drop (list_ascii_of_string t) = true -> rstrip drop t = EmptyString.
Proof.
  induction t as [|c t IH]; cbn; [reflexivity|].
  intros H. apply andb_prop in H. destruct H as [-> H]. rewrite (IH H).
  reflexivity.
Qed.

Lemma lstrip_app (drop : ascii -> bool) (s t : string) :
  lstrip drop (s ++ t)
  = match lstrip drop s with
    | EmptyString => lstrip drop t
    | kept => (kept ++ t)%string
    end.
Proof.
  induction s as [|c s IH]; cbn; [destruct (lstrip drop t); reflexivity|].
  destruct (drop c); [exact IH | reflexivity].
Qed.

Lemma rstrip_app_dropped (drop : ascii -> bool) (t : string) :
  rstrip drop t = EmptyString ->
  forall s, rstrip drop (s ++ t) = rstrip drop s.
Proof.
  intros Ht s. induction s as [|c s IH]; cbn; [exact Ht|].
  rewrite IH. reflexivity.
Qed.

Lemma strip_app_dropped (chars s t : string) :
  forallb (in_chars chars) (list_ascii_of_string t) = true ->
  strip chars (s ++ t) = strip chars s.
Proof.
  intros Ht. unfold strip. rewrite lstrip_app.
  destruct (lstrip (in_chars chars) s) as [|c kept] eqn:Hs.
  - rewrite (lstrip_all_dropped _ _ Ht). reflexivity.
  - apply rstrip_app_dropped. apply rstrip_all_dropped. exact Ht.
Qed.

Lemma startswith_app (p s t : string) :
  startswith s p = true -> startswith (s ++ t) p = true.
Proof.
  revert s. induction p as [|a p IH]; intros s; cbn; [reflexivity|].
  destruct s as [|b s]; [discriminate|]. cbn.
  intros H. apply andb_prop in H. destruct H as [-> H]. exact (IH s H).
Qed.

(** X4. Only the prefix is checked and the wrapper is removed as a set of
    characters, so whatever characters of [/Date()] follow a string that
    starts with [/Date(] change nothing: the string decodes as without
    them. *)
Theorem parse_date_ignores_trailing_wrapper (s t : string) :
  startswith s "/Date(" = true ->
  forallb (in_chars "/Date()") (list_ascii_of_string t) = true ->
  _parse_date (VStr (s ++ t)) = _parse_date (VStr s).
Proof.
  intros Hs Ht. unfold _parse_date.
  rewrite (startswith_app _ _ t Hs), Hs, (strip_app_dropped _ s t Ht).
  destruct s as [|c s]; [discriminate|]. reflexivity.
Qed.

(** ** Further properties of the normaliser *)

(** X5. The normaliser reads six keys and nothing else: two raw records
    that agree on [TypeNumber], [PermitAddress], [ProfessionalName],
    [IssuedDate], [PermitType] and [Status] give the same outcome, whatever
    other keys they hold and in whatever order. *)
Theorem process_permit_data_reads_six_keys (d1 d2 : pydict) :
  (forall key,
      In key ["TypeNumber"; "PermitAddress"; "ProfessionalName"; "IssuedDate";
              "PermitType"; "Status"] ->
      dict_get d1 key VNone = dict_get d2 key VNone) ->
  _process_permit_data (VDict d1) = _process_permit_data (VDict d2).
Proof.
  intros H. rewrite !process_permit_data_dict. unfold normalized_record.
  rewrite (H "TypeNumber"), (H "PermitAddress"), (H "ProfessionalName"),
    (H "IssuedDate"), (H "PermitType"), (H "Status")
    by (cbn [In]; repeat first [left; reflexivity | right]).
  reflexivity.
Qed.

Lemma process_permit_data_valid (permit_json out : pyval) :
  _process_permit_data permit_json = Ret out -> truthy out = true ->
  valid_row out.
Proof.
  destruct permit_json as [| b | z | f | s | l | d]; try discriminate.
  rewrite process_permit_data_dict.
  destruct (_parse_date _) as [date | e] eqn:Hdate; [|discriminate].
  cbn [bind].
  destruct (truthy (dict_get d "TypeNumber" VNone)) eqn:Hnumber;
    [|intros [= <-]; discriminate].
  destruct (truthy (dict_get d "PermitAddress" VNone)) eqn:Haddress;
    [|intros [= <-]; discriminate].
  cbn [negb orb]. intros [= <-] _. eexists. split; [reflexivity|].
  cbn [dict_get String.eqb Ascii.eqb Bool.eqb].
  repeat split; try assumption.
  exact (parse_date_None_or_str _ _ Hdate).
Qed.

(** ** Further properties of the fetch loop *)

Lemma kept_rows_satisfy (P : pyval -> Prop) (response_data : pyval) :
  (forall permit_json out,
      _process_permit_data permit_json = Ret out -> truthy out = true -> P out) ->
  Forall P (kept_rows response_data).
Proof.
  intros HP. unfold kept_rows.
  destruct (py_get _ _ _) as [data|e]; [|constructor].
  destruct (py_iter data) as [items|e]; [|constructor].
  induction items as [|permit_json rest IH]; cbn [flat_map]; [constructor|].
  apply Forall_app. split; [|exact IH]. unfold keep_row.
  destruct (_process_permit_data permit_json) as [processed|e] eqn:Hrow;
    [|constructor].
  destruct (truthy processed) eqn:Htrue; constructor; [|constructor].
  exact (HP _ _ Hrow Htrue).
Qed.

Lemma loop_body_Break (st : session) (result : list pyval) (events : list event) :
  loop_body st = (Ret (Break result), events) ->
  page_step st (_make_request (build_payload (current_page st)))
  = Ret (Break result)
  /\ events = [Request (build_payload (current_page st))].
Proof.
  unfold loop_body.
  destruct (page_step st _) as [[result'|next]|e];
    [| destruct (_ <? _); discriminate | discriminate].
  intros [= <- <-]. split; reflexivity.
Qed.

Lemma fetch_loop_rows_satisfy (P : pyval -> Prop) (fuel : nat) :
  (forall permit_json out,
      _process_permit_data permit_json = Ret out -> truthy out = true -> P out) ->
  forall st result trace,
    Forall P (all_permits st) ->
    fetch_loop fuel st = (Some (Ret result), trace) ->
    Forall P result.
Proof.
  intros HP. induction fuel as [|fuel IH]; intros st result trace Hall;
    cbn [fetch_loop]; [discriminate|].
  destruct (loop_body st) as [[[r|next]|e] events] eqn:Hbody.
  - intros [= <- <-]. apply loop_body_Break in Hbody.
    destruct Hbody as [Hstep _]. apply page_step_inv in Hstep.
    destruct Hstep as [H | [d [_ [H | H]]]]; try discriminate;
      injection H as ->; [exact Hall|].
    apply Forall_app. split; [exact Hall | exact (kept_rows_satisfy P _ HP)].
  - destruct (loop_body_Continue_state _ _ _ Hbody) as [d [_ [_ [Hnext _]]]].
    destruct (fetch_loop fuel next) as [outcome later] eqn:Hloop.
    intros [= -> <-]. apply (IH next result later); [|exact Hloop].
    rewrite Hnext. apply Forall_app.
    split; [exact Hall | exact (kept_rows_satisfy P _ HP)].
  - discriminate.
Qed.

(** X6. Every row a fetch returns has the six keys, a truthy
    [permit_number], a truthy [address], and an [issued_date] that is [None]
    or a string: no rejected record and no partial record ever reaches the
    result. *)
Theorem fetch_returns_valid_rows
        (fuel : nat) (result : list pyval) (trace : list event) :
  fetch_permits_for_date_range fuel = (Some (Ret result), trace) ->
  Forall valid_row result.
Proof.
  apply (fetch_loop_rows_satisfy valid_row fuel process_permit_data_valid).
  constructor.
Qed.

Lemma kept_rows_falsy (d : pydict) :
  truthy (dict_get d "Data" (VList [])) = false -> kept_rows (VDict d) = [].
Proof.
  unfold kept_rows. cbn [py_get].
  destruct (dict_get d "Data" (VList [])) as [| b | z | f | s | l | d'];
    cbn [py_iter truthy]; try reflexivity.
  - destruct s; [reflexivity | discriminate].
  - destruct l; [reflexivity | discriminate].
  - destruct d'; [reflexivity | discriminate].
Qed.

(** Why a pass stopped: with the rows of its page added (none when the
    request failed or the page was empty), or, on page 1 only, because the
    reported total is 0. *)
Lemma page_step_Break_inv
      (st : session) (response_data : pyval) (result : list pyval) :
  page_step st response_data = Ret (Break result) ->
  result = all_permits st ++ kept_rows response_data
  \/ (result = all_permits st
      /\ current_page st = 1
      /\ exists d,
          response_data = VDict d
          /\ py_eq_int (dict_get d "Total" (VInt 0)) 0 = true).
Proof.
  unfold page_step.
  destruct response_data as [| b | z | f | s | l | d];
    cbn [is_None py_get bind]; try discriminate.
  { intros [= <-]. left. cbn. rewrite app_nil_r. reflexivity. }
  assert (Hprocessed :
            forall total,
              (items <- py_iter (dict_get d "Data" (VList [])) ;;
               permits <- process_page items (all_permits st) ;;
               enough <- py_int_ge (Z.of_nat (List.length permits)) total ;;
               done <- (if (enough : bool) then Ret true
                        else n <- py_len (dict_get d "Data" (VList [])) ;;
                             Ret (n <? page_size)) ;;
               if (done : bool) then Ret (Break permits)
               else Ret (Continue {| current_page := current_page st + 1;
                                     all_permits := permits;
                                     total_records := total |}))
              = Ret (Break result) ->
              result = all_permits st ++ kept_rows (VDict d)).
  { intros total.
    destruct (py_iter _) as [items|e] eqn:Hitems; cbn [bind]; [|discriminate].
    destruct (process_page items (all_permits st)) as [permits|e] eqn:Hpage;
      cbn [bind]; [|discriminate].
    apply process_page_kept in Hpage.
    rewrite <- (kept_rows_dict d items Hitems) in Hpage. subst permits.
    destruct (py_int_ge _ total) as [enough|e]; cbn [bind]; [|discriminate].
    match goal with |- bind ?m _ = _ -> _ => destruct m as [[]|e] end;
      cbn [bind]; try discriminate.
    intros [= <-]. reflexivity. }
  destruct (truthy (dict_get d "Data" (VList []))) eqn:Hdata; cbn [negb andb].
  - destruct (current_page st =? 1) eqn:Hfirst; cbn [bind].
    + apply Z.eqb_eq in Hfirst.
      destruct (py_eq_int (dict_get d "Total" (VInt 0)) 0) eqn:Hzero;
        cbn [bind].
      { intros [= <-]. right. repeat split; try assumption.
        exists d. split; [reflexivity | exact Hzero]. }
      destruct (py_gt_int _ 0) as [reported|e]; cbn [bind]; [|discriminate].
      rewrite andb_false_r. intros H. left. exact (Hprocessed _ H).
    + intros H. left. exact (Hprocessed _ H).
  - destruct (1 <? current_page st) eqn:Hlater.
    + intros [= <-]. left. rewrite (kept_rows_falsy d Hdata), app_nil_r.
      reflexivity.
    + assert (Hfirst : (current_page st =? 1) = true \/
                       (current_page st =? 1) = false)
        by (destruct (current_page st =? 1); auto).
      destruct Hfirst as [Hfirst | Hfirst]; rewrite Hfirst; cbn [bind].
      * destruct (py_eq_int (dict_get d "Total" (VInt 0)) 0) eqn:Hzero;
          cbn [bind].
        { intros [= <-]. right. apply Z.eqb_eq in Hfirst.
          repeat split; try assumption.
          exists d. split; [reflexivity | exact Hzero]. }
        destruct (py_gt_int _ 0) as [[]|e]; cbn [bind andb];
          try discriminate.
        { intros [= <-]. left. rewrite (kept_rows_falsy d Hdata), app_nil_r.
          reflexivity. }
        intros H. left. exact (Hprocessed _ H).
      * intros H. left. exact (Hprocessed _ H).
Qed.

Lemma fetch_loop_result (fuel : nat) :
  forall st result trace,
    1 <= current_page st ->
    fetch_loop fuel st = (Some (Ret result), trace) ->
    result
    = all_permits st
      ++ flat_map (fun i => kept_rows (_make_request
                              (build_payload (current_page st + Z.of_nat i))))
           (seq 0 (List.length (requests trace)))
    \/ (current_page st = 1
        /\ result = all_permits st
        /\ requests trace = [build_payload 1]
        /\ exists d,
            _make_request (build_payload 1) = VDict d
            /\ py_eq_int (dict_get d "Total" (VInt 0)) 0 = true).
Proof.
  induction fuel as [|fuel IH]; intros st result trace Hpage;
    cbn [fetch_loop]; [discriminate|].
  destruct (loop_body st) as [[[r|next]|e] events] eqn:Hbody.
  - intros [= <- <-]. apply loop_body_Break in Hbody.
    destruct Hbody as [Hstep ->]. apply page_step_Break_inv in Hstep.
    destruct Hstep as [-> | [-> [Hfirst [d [Hd Hzero]]]]].
    + left. cbn. rewrite Z.add_0_r, app_nil_r. reflexivity.
    + right. rewrite Hfirst in Hd |- *. repeat split; try reflexivity.
      exists d. split; assumption.
  - pose proof (loop_body_requests st) as Hreq. rewrite Hbody in Hreq.
    cbn [snd] in Hreq.
    destruct (loop_body_Continue_state _ _ _ Hbody) as [d [_ [Hp [Hall _]]]].
    destruct (fetch_loop fuel next) as [outcome later] eqn:Hloop.
    intros [= -> <-]. left.
    destruct (IH next result later ltac:(lia) Hloop) as [-> | [Hone _]];
      [|lia].
    rewrite requests_app, Hreq, Hall, Hp. cbn [app List.length seq flat_map].
    rewrite <- seq_shift, (flat_map_concat_map _ (map S _)), map_map,
      <- flat_map_concat_map, <- app_assoc.
    change (Z.of_nat 0) with 0. rewrite Z.add_0_r. f_equal. f_equal.
    apply flat_map_ext. intros i.
    replace (current_page st + 1 + Z.of_nat i)
      with (current_page st + Z.of_nat (S i)) by lia.
    reflexivity.
  - discriminate.
Qed.

(** X7. The result of a fetch that returns is the rows kept from the pages
    it requested, page after page and in the order of each page: nothing is
    lost, repeated or reordered. The one exception is a first page that
    reports a total of 0: its records are not looked at and the result is
    empty. *)
Theorem fetch_result_is_kept_rows
        (fuel : nat) (result : list pyval) (trace : list event) :
  fetch_permits_for_date_range fuel = (Some (Ret result), trace) ->
  result
  = flat_map (fun page => kept_rows (_make_request (build_payload page)))
      (pages (List.length (requests trace)))
  \/ (result = []
      /\ requests trace = [build_payload 1]
      /\ exists d,
          _make_request (build_payload 1) = VDict d
          /\ py_eq_int (dict_get d "Total" (VInt 0)) 0 = true).
Proof.
  intros H. apply fetch_loop_result in H; [|cbn; lia].
  cbn [initial_session current_page all_permits app] in H.
  destruct H as [-> | [_ [-> H]]]; [left | right; split; [reflexivity | exact H]].
  unfold pages.
  rewrite (flat_map_concat_map _ (map _ _)), map_map, <- flat_map_concat_map.
  apply flat_map_ext. intros i.
  replace (1 + Z.of_nat i) with (Z.of_nat (S i)) by lia. reflexivity.
Qed.

Lemma fetch_loop_paced (fuel : nat) :
  forall st outcome trace,
    fetch_loop fuel st = (Some outcome, trace) ->
    exists m, trace = paced_requests (current_page st) (S m).
Proof.
  induction fuel as [|fuel IH]; intros st outcome trace; cbn [fetch_loop];
    [discriminate|].
  destruct (loop_body st) as [[[r|next]|e] events] eqn:Hbody.
  - apply loop_body_Break in Hbody. destruct Hbody as [_ ->].
    intros [= _ <-]. exists 0%nat. reflexivity.
  - destruct (loop_body_Continue_state _ _ _ Hbody) as [d [_ [Hp _]]].
    apply loop_body_Continue in Hbody. destruct Hbody as [_ ->].
    destruct (fetch_loop fuel next) as [outcome' later] eqn:Hloop.
    intros [= -> <-]. destruct (IH _ _ _ Hloop) as [m ->].
    exists (S m). rewrite Hp. reflexivity.
  - intros [= _ <-]. exists 0%nat. unfold loop_body in Hbody.
    destruct (page_step st _) as [[r|next]|e']; try discriminate;
      [destruct (_ <? _); [|discriminate]|];
      injection Hbody as _ <-; reflexivity.
Qed.

(** X8. A run that ends, with a result or with an exception, has issued
    its requests for the pages 1, 2, 3, ... in that order, slept the
    configured delay exactly once between two consecutive requests, and not
    slept after the last one. *)
Theorem requests_are_paced
        (fuel : nat) (outcome : res (list pyval)) (trace : list event) :
  fetch_permits_for_date_range fuel = (Some outcome, trace) ->
  exists m, trace = paced_requests 1 (S m).
Proof. apply fetch_loop_paced. Qed.

(** X11. With a negative delay no second request is ever sent: the run
    ends after its first request, with the result of page 1 when that page is
    the last one and with the [ValueError] of [time.sleep] otherwise. *)
Theorem negative_delay_stops_after_first_page (fuel : nat) :
  delay_seconds < 0 ->
  (1 <= fuel)%nat ->
  exists outcome,
    fetch_permits_for_date_range fuel
    = (Some outcome, [Request (build_payload 1)])
    /\ (forall next,
           page_step initial_session (_make_request (build_payload 1))
           = Ret (Continue next) ->
           outcome = Raise ValueError).
Proof.
  intros Hdelay Hfuel. destruct fuel as [|fuel]; [lia|].
  unfold fetch_permits_for_date_range. cbn [fetch_loop]. unfold loop_body.
  cbn [initial_session current_page].
  change {| current_page := 1; all_permits := []; total_records := VInt 0 |}
    with initial_session.
  destruct (page_step initial_session _) as [[r|next]|e].
  - eexists. split; [reflexivity | discriminate].
  - apply Z.ltb_lt in Hdelay. rewrite Hdelay.
    eexists. split; [reflexivity | reflexivity].
  - eexists. split; [reflexivity | discriminate].
Qed.

(** *** Exceptions that end a run *)

Lemma process_page_raises (good : list pyval) (bad : pyval) (rest : list pyval)
      (e : exn) :
  Forall (fun permit_json => exists out, _process_permit_data permit_json = Ret out)
    good ->
  _process_permit_data bad = Raise e ->
  forall acc, process_page (good ++ bad :: rest) acc = Raise e.
Proof.
  intros Hgood Hbad.
  induction Hgood as [|permit_json good [out Hout] _ IH]; intros acc;
    cbn [app process_page].
  - rewrite Hbad. reflexivity.
  - rewrite Hout. cbn [bind]. apply IH.
Qed.

Lemma fetch_after_pages_one_more
      (k fuel : nat) (st : session) (trace : list event)
      (outcome : res (list pyval)) :
  run_pages k initial_session = Some (st, trace) ->
  (forall c, page_step st (_make_request (build_payload (Z.of_nat (S k))))
             = Ret c -> exists result, c = Break result /\ outcome = Ret result) ->
  (forall e, page_step st (_make_request (build_payload (Z.of_nat (S k))))
             = Raise e -> outcome = Raise e) ->
  (k < fuel)%nat ->
  fetch_permits_for_date_range fuel
  = (Some outcome, trace ++ [Request (build_payload (Z.of_nat (S k)))]).
Proof.
  intros Hrun Hret Hraise Hfuel.
  destruct (run_pages_initial _ _ _ Hrun) as [Hpage _].
  unfold fetch_permits_for_date_range.
  replace fuel with (k + S (fuel - S k))%nat by lia.
  rewrite (fetch_loop_after_pages _ _ _ _ _ Hrun).
  cbn [fetch_loop]. unfold loop_body. rewrite Hpage.
  destruct (page_step st _) as [c|e].
  - destruct (Hret c eq_refl) as [result [-> ->]]. reflexivity.
  - rewrite (Hraise e eq_refl). reflexivity.
Qed.

(** X12. A response that decodes to something other than an object or
    [null] (a list, a string, a number) ends the run with [AttributeError],
    on whatever page it arrives: the rows of the pages before it are not
    returned. *)
Theorem non_object_body_discards_rows
        (k fuel : nat) (st : session) (trace : list event) :
  run_pages k initial_session = Some (st, trace) ->
  _make_request (build_payload (Z.of_nat (S k))) <> VNone ->
  (forall d, _make_request (build_payload (Z.of_nat (S k))) <> VDict d) ->
  (k < fuel)%nat ->
  fetch_permits_for_date_range fuel
  = (Some (Raise AttributeError),
     trace ++ [Request (build_payload (Z.of_nat (S k)))]).
Proof.
  intros Hrun Hnone Hdict Hfuel.
  apply (fetch_after_pages_one_more k fuel st trace _ Hrun); [| |exact Hfuel];
    destruct (_make_request _) as [| b | z | f | s | l | d];
    try congruence; try (exfalso; apply (Hdict d); reflexivity);
    cbn; congruence.
Qed.

(** X14. When the normalisation of a record raises on a page after the
    first, the exception ends the whole run: the rows of the earlier pages,
    and of the records before it on its page, are not returned. *)
Theorem record_exception_discards_rows
        (k fuel : nat) (st : session) (trace : list event)
        (d : pydict) (good : list pyval) (bad : pyval) (rest : list pyval)
        (e : exn) :
  (1 <= k)%nat ->
  run_pages k initial_session = Some (st, trace) ->
  _make_request (build_payload (Z.of_nat (S k))) = VDict d ->
  dict_get d "Data" (VList []) = VList (good ++ bad :: rest) ->
  Forall (fun permit_json => exists out, _process_permit_data permit_json = Ret out)
    good ->
  _process_permit_data bad = Raise e ->
  (k < fuel)%nat ->
  fetch_permits_for_date_range fuel
  = (Some (Raise e), trace ++ [Request (build_payload (Z.of_nat (S k)))]).
Proof.
  intros Hk Hrun Hresp Hdata Hgood Hbad Hfuel.
  destruct (run_pages_initial _ _ _ Hrun) as [Hpage _].
  assert (Hstep : page_step st (VDict d) = Raise e).
  { unfold page_step. cbn [is_None py_get bind]. rewrite Hdata.
    replace (truthy (VList (good ++ bad :: rest))) with true
      by (destruct good; reflexivity).
    cbn [negb andb].
    replace (current_page st =? 1) with false
      by (symmetry; apply Z.eqb_neq; lia).
    cbn [bind py_iter].
    rewrite (process_page_raises good bad rest e Hgood Hbad). reflexivity. }
  apply (fetch_after_pages_one_more k fuel st trace _ Hrun); [| |exact Hfuel];
    rewrite Hresp, Hstep; congruence.
Qed.

(** X13. A first page whose total is not a number (a string, [null], a
    list, an object) ends the run with the [TypeError] of the comparison
    [total_records > 0], after one request. *)
Theorem non_numeric_total_raises (d : pydict) (fuel : nat) :
  _make_request (build_payload 1) = VDict d ->
  is_number (dict_get d "Total" (VInt 0)) = false ->
  (1 <= fuel)%nat ->
  fetch_permits_for_date_range fuel
  = (Some (Raise TypeError), [Request (build_payload 1)]).
Proof.
  intros Hresp Htotal Hfuel. destruct fuel as [|fuel]; [lia|].
  unfold fetch_permits_for_date_range. cbn [fetch_loop]. unfold loop_body.
  cbn [initial_session current_page]. rewrite Hresp. unfold page_step.
  cbn [is_None py_get bind current_page]. rewrite andb_false_r.
  change (1 =? 1) with true. cbn [bind].
  destruct (dict_get d "Total" (VInt 0)) as [| b | z | f | s | l | d'];
    try discriminate; reflexivity.
Qed.

(** *** Runs that end and runs that do not *)

Lemma fetch_loop_request_count (fuel : nat) :
  forall st, (List.length (requests (snd (fetch_loop fuel st))) <= fuel)%nat.
Proof.
  induction fuel as [|fuel IH]; intros st; cbn [fetch_loop]; [cbn; lia|].
  pose proof (loop_body_requests st) as Hreq.
  destruct (loop_body st) as [[[r|next]|e] events]; cbn [snd] in Hreq |- *;
    try (rewrite Hreq; cbn; lia).
  specialize (IH next). destruct (fetch_loop fuel next) as [outcome later].
  cbn [snd] in IH |- *. rewrite requests_app, Hreq. cbn. lia.
Qed.

(** A pass over a well-formed page returns; when it goes on, it has added
    at least a page of rows and is still below the total. *)
Lemma page_step_well_formed (st : session) (T : Z) :
  0 < page_size ->
  1 <= current_page st ->
  page_well_formed (current_page st) ->
  (forall d, _make_request (build_payload (current_page st)) = VDict d ->
             (if current_page st =? 1
              then dict_get d "Total" (VInt 0) else total_records st) = VInt T) ->
  exists c,
    page_step st (_make_request (build_payload (current_page st))) = Ret c
    /\ match c with
       | Break _ => True
       | Continue next =>
           current_page next = current_page st + 1
           /\ total_records next = VInt T
           /\ Z.of_nat (List.length (all_permits next)) < T
           /\ Z.of_nat (List.length (all_permits st)) + page_size
              <= Z.of_nat (List.length (all_permits next))
       end.
Proof.
  intros Hsize Hpage [Hnone | [d [items [rows [Hresp [Hdata Hrows]]]]]] Htotal.
  { rewrite Hnone. eexists. split; [reflexivity | exact I]. }
  specialize (Htotal d Hresp). rewrite Hresp.
  pose proof (Forall2_length Hrows) as Hlen.
  destruct items as [|item items].
  - inversion Hrows; subst. unfold page_step.
    cbn [is_None py_get bind]. rewrite Hdata. cbn [truthy negb andb].
    destruct (1 <? current_page st) eqn:Hlater;
      [eexists; split; [reflexivity | exact I]|].
    assert (Hfirst : current_page st = 1) by (apply Z.ltb_ge in Hlater; lia).
    rewrite Hfirst in Htotal |- *. change (1 =? 1) with true in Htotal |- *.
    rewrite Htotal. cbn [bind]. unfold py_eq_int, py_gt_int, compare_int.
    cbn [bind py_iter process_page py_int_ge py_len].
    destruct (0 ?= T) eqn:Hcmp; cbn [andb bind];
      try (eexists; split; [reflexivity | exact I]).
    unfold py_int_ge, compare_int. cbn [bind].
    destruct (Z.of_nat (List.length (all_permits st)) ?= T) eqn:Hcmp';
      cbn [bind py_len];
      try (eexists; split; [reflexivity | exact I]).
    exfalso. apply Z.compare_gt_iff in Hcmp.
    pose proof (proj1 (Z.compare_lt_iff _ _) Hcmp') as Hbelow. lia.
  - destruct (Z.eq_dec T 0) as [HT | HT];
      [destruct (Z.eq_dec (current_page st) 1) as [Hfirst | Hfirst]|].
    + unfold page_step. cbn [is_None py_get bind]. rewrite Hdata.
      cbn [truthy negb andb]. rewrite Hfirst in Htotal |- *.
      change (1 =? 1) with true in Htotal |- *. rewrite Htotal, HT.
      eexists. split; [reflexivity | exact I].
    + rewrite (page_step_processed st d (item :: items)
                 (all_permits st ++ rows) T Hdata);
        try discriminate; try assumption; try contradiction;
        [|apply (process_page_rows _ _ Hrows)].
      destruct (_ || _)%bool eqn:Hstop;
        eexists; (split; [reflexivity|]); [exact I|].
      apply orb_false_iff in Hstop. destruct Hstop as [H1 H2].
      apply Z.leb_gt in H1. apply Z.ltb_ge in H2.
      cbn [current_page total_records all_permits].
      rewrite length_app in H1 |- *. repeat split; lia.
    + rewrite (page_step_processed st d (item :: items)
                 (all_permits st ++ rows) T Hdata);
        try discriminate; try assumption; try (intros _; exact HT);
        [|apply (process_page_rows _ _ Hrows)].
      destruct (_ || _)%bool eqn:Hstop;
        eexists; (split; [reflexivity|]); [exact I|].
      apply orb_false_iff in Hstop. destruct Hstop as [H1 H2].
      apply Z.leb_gt in H1. apply Z.ltb_ge in H2.
      cbn [current_page total_records all_permits].
      rewrite length_app in H1 |- *. repeat split; lia.
Qed.

Lemma fetch_loop_ends (T : Z) (fuel : nat) :
  0 < page_size ->
  0 <= delay_seconds ->
  (forall page, 1 <= page -> page_well_formed page) ->
  (forall d, _make_request (build_payload 1) = VDict d ->
             dict_get d "Total" (VInt 0) = VInt T) ->
  forall st,
    1 <= current_page st ->
    current_page st = 1 \/ total_records st = VInt T ->
    T - Z.of_nat (List.length (all_permits st)) <= Z.of_nat (S fuel) * page_size ->
    exists result trace, fetch_loop (S fuel) st = (Some (Ret result), trace).
Proof.
  intros Hsize Hdelay Hpages Hfirst.
  induction fuel as [|fuel IH]; intros st Hpage Htotal Hleft.
  - destruct (page_step_well_formed st T Hsize Hpage (Hpages _ Hpage))
      as [c [Hstep Hc]].
    { intros d Hd. destruct (current_page st =? 1) eqn:Hone.
      - apply Z.eqb_eq in Hone. rewrite Hone in Hd. exact (Hfirst d Hd).
      - apply Z.eqb_neq in Hone. destruct Htotal; [contradiction | assumption]. }
    cbn [fetch_loop]. unfold loop_body. rewrite Hstep.
    destruct c as [result|next]; [eexists; eexists; reflexivity|].
    exfalso. lia.
  - destruct (page_step_well_formed st T Hsize Hpage (Hpages _ Hpage))
      as [c [Hstep Hc]].
    { intros d Hd. destruct (current_page st =? 1) eqn:Hone.
      - apply Z.eqb_eq in Hone. rewrite Hone in Hd. exact (Hfirst d Hd).
      - apply Z.eqb_neq in Hone. destruct Htotal; [contradiction | assumption]. }
    change (fetch_loop (S (S fuel)) st)
      with (match loop_body st with
            | (Ret (Break result), events) => (Some (Ret result), events)
            | (Raise e, events) => (Some (Raise e), events)
            | (Ret (Continue next), events) =>
                let (outcome, later) := fetch_loop (S fuel) next in
                (outcome, events ++ later)
            end).
    unfold loop_body. rewrite Hstep.
    destruct c as [result|next]; [eexists; eexists; reflexivity|].
    destruct Hc as [Hp [Ht [Hbelow Hmore]]].
    replace (delay_seconds <? 0) with false
      by (symmetry; apply Z.ltb_ge; exact Hdelay).
    destruct (IH next) as [result [trace Hloop]]; [lia | auto | nia |].
    rewrite Hloop. eexists. eexists. reflexivity.
Qed.

(** X9. When the page size is positive, the delay a valid sleep length,
    the first page reports an integer total [T], and every page either fails
    or holds a list of records that all normalise to a row, the call returns
    a result without an exception after at most [T / page_size + 1]
    requests. *)
Theorem well_formed_pages_end_the_run (T : Z) :
  0 < page_size ->
  0 <= delay_seconds ->
  (forall page, 1 <= page -> page_well_formed page) ->
  (forall d, _make_request (build_payload 1) = VDict d ->
             dict_get d "Total" (VInt 0) = VInt T) ->
  exists result trace,
    fetch_permits_for_date_range (Z.to_nat (T / page_size) + 1)
    = (Some (Ret result), trace)
    /\ (List.length (requests trace) <= Z.to_nat (T / page_size) + 1)%nat.
Proof.
  intros Hsize Hdelay Hpages Hfirst.
  unfold fetch_permits_for_date_range.
  replace (Z.to_nat (T / page_size) + 1)%nat
    with (S (Z.to_nat (T / page_size))) by lia.
  destruct (fetch_loop_ends T (Z.to_nat (T / page_size)) Hsize Hdelay Hpages
              Hfirst initial_session) as [result [trace Hloop]].
  - cbn. lia.
  - left. reflexivity.
  - cbn [initial_session all_permits List.length].
    pose proof (Z.mul_succ_div_gt T page_size Hsize) as Hdiv.
    assert (Hq : T / page_size <= Z.of_nat (Z.to_nat (T / page_size))) by lia.
    nia.
  - exists result, trace. split; [exact Hloop|].
    pose proof (fetch_loop_request_count (S (Z.to_nat (T / page_size)))
                  initial_session) as Hcount.
    rewrite Hloop in Hcount. exact Hcount.
Qed.

Lemma process_page_rejected (items : list pyval) :
  Forall (fun permit_json => _process_permit_data permit_json = Ret VNone) items ->
  forall acc, process_page items acc = Ret acc.
Proof.
  induction 1 as [|permit_json items Hrow _ IH]; intros acc;
    cbn [process_page]; [reflexivity|].
  rewrite Hrow. cbn [bind truthy]. apply IH.
Qed.

Lemma fetch_loop_never_ends (T : Z) (fuel : nat) :
  0 < page_size ->
  0 <= delay_seconds ->
  0 < T ->
  (forall page, 1 <= page -> page_all_rejected page) ->
  (forall d, _make_request (build_payload 1) = VDict d ->
             dict_get d "Total" (VInt 0) = VInt T) ->
  forall st,
    1 <= current_page st ->
    all_permits st = [] ->
    current_page st = 1 \/ total_records st = VInt T ->
    fst (fetch_loop fuel st) = None
    /\ List.length (requests (snd (fetch_loop fuel st))) = fuel.
Proof.
  intros Hsize Hdelay HT Hpages Hfirst.
  induction fuel as [|fuel IH]; intros st Hpage Hall Htotal;
    cbn [fetch_loop]; [split; reflexivity|].
  destruct (Hpages _ Hpage) as [d [items [Hresp [Hdata [Hlen Hrejected]]]]].
  unfold loop_body. rewrite Hresp.
  rewrite (page_step_processed st d items [] T Hdata).
  - cbn [List.length Z.of_nat].
    replace (T <=? 0) with false by (symmetry; apply Z.leb_gt; exact HT).
    replace (Z.of_nat (List.length items) <? page_size) with false
      by (symmetry; apply Z.ltb_ge; lia).
    cbn [orb]. replace (delay_seconds <? 0) with false
      by (symmetry; apply Z.ltb_ge; exact Hdelay).
    destruct (IH {| current_page := current_page st + 1;
                    all_permits := [];
                    total_records := VInt T |}) as [Hnone Hcount];
      [cbn; lia | reflexivity | right; reflexivity |].
    destruct (fetch_loop fuel _) as [outcome later].
    cbn [fst snd] in Hnone, Hcount |- *. split; [exact Hnone|].
    rewrite requests_app, length_app, Hcount. reflexivity.
  - intros ->. cbn in Hlen. lia.
  - rewrite Hall. apply process_page_rejected. exact Hrejected.
  - destruct (current_page st =? 1) eqn:Hone.
    + apply Z.eqb_eq in Hone. rewrite Hone in Hresp. exact (Hfirst d Hresp).
    + apply Z.eqb_neq in Hone. destruct Htotal; [contradiction | assumption].
  - intros _. lia.
Qed.

(** X10. The loop has no bound of its own. When the first page reports a
    positive total and every page holds exactly [page_size] records that are
    all rejected, the count of kept rows never reaches the total and no page
    is short: the run requests page after page and never returns. *)
Theorem rejected_full_pages_never_end (T : Z) :
  0 < page_size ->
  0 <= delay_seconds ->
  0 < T ->
  (forall page, 1 <= page -> page_all_rejected page) ->
  (forall d, _make_request (build_payload 1) = VDict d ->
             dict_get d "Total" (VInt 0) = VInt T) ->
  forall fuel,
    fst (fetch_permits_for_date_range fuel) = None
    /\ List.length (requests (snd (fetch_permits_for_date_range fuel))) = fuel.
Proof.
  intros Hsize Hdelay HT Hpages Hfirst fuel.
  apply (fetch_loop_never_ends T fuel Hsize Hdelay HT Hpages Hfirst);
    [cbn; lia | reflexivity | left; reflexivity].
Qed.

(** ** The decoded date as text *)

Lemma day_of_year_bounds (doe : Z) :
  0 <= doe < 146097 ->
  let yoe := (doe - doe / 1460 + doe / 36524 - doe / 146096) / 365 in
  let doy := doe - (365 * yoe + yoe / 4 - yoe / 100) in
  0 <= yoe <= 399 /\ 0 <= doy <= 365.
Proof.
  intros H yoe doy. subst doy yoe.
  Z.to_euclidean_division_equations; lia.
Qed.

Lemma month_day_bounds (doy : Z) :
  0 <= doy <= 365 ->
  let mp := (5 * doy + 2) / 153 in
  let d := doy - (153 * mp + 2) / 5 + 1 in
  0 <= mp <= 11 /\ 1 <= d <= 31.
Proof.
  intros H mp d. subst d mp.
  Z.to_euclidean_division_equations; lia.
Qed.

Lemma civil_from_days_valid (days y m d : Z) :
  civil_from_days days = (y, m, d) -> 1 <= m <= 12 /\ 1 <= d <= 31.
Proof.
  unfold civil_from_days.
  set (z := days + 719468). set (doe := z - z / 146097 * 146097).
  assert (Hdoe : 0 <= doe < 146097)
    by (subst doe; Z.to_euclidean_division_equations; lia).
  destruct (day_of_year_bounds doe Hdoe) as [_ Hdoy]. cbv zeta in Hdoy.
  set (yoe := (doe - doe / 1460 + doe / 36524 - doe / 146096) / 365) in *.
  set (doy := doe - (365 * yoe + yoe / 4 - yoe / 100)) in *.
  destruct (month_day_bounds doy Hdoy) as [Hmp Hd]. cbv zeta in Hmp, Hd.
  set (mp := (5 * doy + 2) / 153) in *.
  intros [= _ <- <-]. split; [|exact Hd].
  destruct (mp <? 10) eqn:Hlt; [apply Z.ltb_lt in Hlt | apply Z.ltb_ge in Hlt];
    lia.
Qed.

Lemma digit_value_digit_char (n : Z) : digit_value (digit_char n) = n mod 10.
Proof.
  unfold digit_value, digit_char.
  pose proof (Z.mod_pos_bound n 10 ltac:(lia)) as Hmod.
  rewrite nat_ascii_embedding by lia. lia.
Qed.

Lemma decimal_value_pad2 (n : Z) : 0 <= n <= 99 -> decimal_value 0 (pad2 n) = n.
Proof.
  intros Hn. unfold pad2. cbn [decimal_value].
  rewrite !digit_value_digit_char. Z.to_euclidean_division_equations; lia.
Qed.

Lemma decimal_value_pad4 (n : Z) :
  0 <= n <= 9999 -> decimal_value 0 (pad4 n) = n.
Proof.
  intros Hn. unfold pad4, pad2. cbn [decimal_value].
  rewrite !digit_value_digit_char. Z.to_euclidean_division_equations; lia.
Qed.

(** X3. Whenever the content of a string that starts with [/Date(] reads
    as an integer (with or without the closing [)/], with a sign, white space
    or underscores) and the timestamp is in range, the decoded date is ten
    characters, four for the year, two for the month and two for the day with
    [-] between them; the three numbers read back from the text are the local
    date, with the month in 1..12 and the day in 1..31. *)
Theorem decoded_date_is_a_calendar_date (s : string) (timestamp_ms : Z) :
  startswith s "/Date(" = true ->
  py_int (strip "/Date()" s) = Ret timestamp_ms ->
  in_datetime_range timestamp_ms = true ->
  exists y m d,
    local_date timestamp_ms = (y, m, d)
    /\ _parse_date (VStr s) = Ret (VStr (pad4 y ++ "-" ++ pad2 m ++ "-" ++ pad2 d))
    /\ String.length (pad4 y ++ "-" ++ pad2 m ++ "-" ++ pad2 d) = 10%nat
    /\ decimal_value 0 (pad4 y) = y
    /\ decimal_value 0 (pad2 m) = m
    /\ decimal_value 0 (pad2 d) = d
    /\ 1000 <= y <= 9999 /\ 1 <= m <= 12 /\ 1 <= d <= 31.
Proof.
  intros Hprefix Hint Hrange.
  destruct (local_date timestamp_ms) as [[y m] d] eqn:Hdate.
  exists y, m, d.
  assert (Hvalid : 1 <= m <= 12 /\ 1 <= d <= 31).
  { unfold local_date in Hdate. exact (civil_from_days_valid _ _ _ _ Hdate). }
  assert (Hyear : 1000 <= y <= 9999).
  { unfold in_datetime_range in Hrange. rewrite Hdate in Hrange.
    apply andb_true_iff in Hrange. destruct Hrange as [Hrange Hhigh].
    apply andb_true_iff in Hrange. destruct Hrange as [_ Hlow].
    apply Z.leb_le in Hlow. apply Z.leb_le in Hhigh. lia. }
  split; [reflexivity|]. split; [|split; [reflexivity|]].
  - unfold _parse_date. rewrite Hprefix.
    destruct s as [|c s]; [discriminate|]. cbn [truthy String.eqb negb].
    rewrite Hint. cbn [bind].
    rewrite (fromtimestamp_in_range _ Hrange), Hdate. reflexivity.
  - rewrite decimal_value_pad4, !decimal_value_pad2 by lia.
    repeat split; lia.
Qed.

(** ** Properties of saving *)

Lemma all_keys_are_names (names : list string) :
  forallb (fun key => existsb (String.eqb key) names) names = true.
Proof.
  apply forallb_forall. intros key Hin. apply existsb_exists.
  exists key. split; [exact Hin | apply String.eqb_refl].
Qed.

Lemma writerows_uniform (names : list string) (data : list pyval) :
  Forall (row_with_keys names) data ->
  writerows names data = (map (row_cells names) data, None).
Proof.
  induction 1 as [|row data [record [-> Hkeys]] _ IH]; cbn [writerows map];
    [reflexivity|].
  unfold dict_to_list. rewrite Hkeys, all_keys_are_names, IH. reflexivity.
Qed.

(** X15. When every row has the keys of the first one and the file opens,
    [save_to_csv] reports nothing and the file holds the header followed by
    one line per row, in the order of the rows, each line holding the values
    of its row in the order of the header. *)
Theorem save_to_csv_writes_every_row
        (can_open : string -> bool) (data : list pyval) (names : list string)
        (filename : string) :
  fieldnames data = Some names ->
  Forall (row_with_keys names) data ->
  can_open filename = true ->
  save_to_csv can_open data filename
  = Ret {| file_rows := Some (map VStr names :: map (row_cells names) data);
           reported := None |}.
Proof.
  intros Hnames Hrows Hopen. unfold save_to_csv.
  destruct data as [|first rest]; [discriminate|].
  rewrite Hnames, Hopen, (writerows_uniform names _ Hrows). reflexivity.
Qed.

(** X16. The header comes from the first row alone. A later row with a key
    the first row lacks stops the writing with a [ValueError] that is only
    reported: the file is left with the header and the rows before that
    one. *)
Theorem save_to_csv_stops_at_unknown_key
        (can_open : string -> bool) (before after : list pyval)
        (names : list string) (bad : pydict) (key filename : string) :
  fieldnames before = Some names ->
  Forall (row_with_keys names) before ->
  In key (dict_keys bad) -> ~ In key names ->
  can_open filename = true ->
  save_to_csv can_open (before ++ VDict bad :: after) filename
  = Ret {| file_rows := Some (map VStr names :: map (row_cells names) before);
           reported := Some ValueError |}.
Proof.
  intros Hnames Hrows Hkey Hmissing Hopen. unfold save_to_csv.
  assert (Hfield : fieldnames (before ++ VDict bad :: after) = Some names)
    by (destruct before; [discriminate | exact Hnames]).
  rewrite Hfield, Hopen.
  assert (Hbad : dict_to_list names (VDict bad) = Raise ValueError).
  { unfold dict_to_list.
    destruct (forallb _ (dict_keys bad)) eqn:Hall; [|reflexivity].
    exfalso. rewrite forallb_forall in Hall. specialize (Hall key Hkey).
    apply existsb_exists in Hall. destruct Hall as [name [Hin Heq]].
    apply String.eqb_eq in Heq. subst name. exact (Hmissing Hin). }
  assert (Hwrite : writerows names (before ++ VDict bad :: after)
                   = (map (row_cells names) before, Some ValueError)).
  { clear Hnames Hfield.
    induction Hrows as [|row rows [record [-> Hkeys]] _ IH];
      cbn [app writerows map].
    - rewrite Hbad. reflexivity.
    - unfold dict_to_list at 1. rewrite Hkeys, all_keys_are_names, IH.
      reflexivity. }
  rewrite Hwrite. destruct before; [discriminate | reflexivity].
Qed.

(** X17. The main block lets no exception escape. When the fetch returns
    rows and the file opens, the file holds the six-column header and one
    line per fetched row in fetch order; when the fetch returns no row
    nothing is written; when the fetch raises, the exception is reported and
    nothing is written. *)
Theorem fetch_and_save_outcomes
        (can_open : string -> bool) (output_filename : string) (fuel : nat)
        (outcome : res (list pyval)) (trace : list event) :
  fetch_permits_for_date_range fuel = (Some outcome, trace) ->
  match outcome with
  | Raise e =>
      fetch_and_save can_open output_filename fuel
      = Some {| file_rows := None; reported := Some e |}
  | Ret [] =>
      fetch_and_save can_open output_filename fuel
      = Some {| file_rows := None; reported := None |}
  | Ret fetched_permits =>
      fetch_and_save can_open output_filename fuel
      = Some (if can_open output_filename
              then {| file_rows :=
                        Some (map VStr record_keys
                              :: map (row_cells record_keys) fetched_permits);
                      reported := None |}
              else {| file_rows := None; reported := Some OSError |})
  end.
Proof.
  intros Hfetch. unfold fetch_and_save. rewrite Hfetch. cbn [fst].
  destruct outcome as [[|first rest]|e]; try reflexivity.
  assert (Hrows : Forall (row_with_keys record_keys) (first :: rest)).
  { apply (fetch_loop_shape fuel initial_session _ trace);
      [constructor | exact Hfetch]. }
  assert (Hnames : fieldnames (first :: rest) = Some record_keys).
  { inversion Hrows as [|? ? [record [-> Hkeys]] _]; subst.
    cbn. rewrite Hkeys. reflexivity. }
  cbn [truthy]. unfold save_to_csv. rewrite Hnames.
  destruct (can_open output_filename); [|reflexivity].
  rewrite (writerows_uniform record_keys _ Hrows). reflexivity.
Qed.

(** ** The other ways a run ends *)

Lemma first_pass_total_is_number (st next : session) (d : pydict) :
  current_page st = 1 ->
  page_step st (VDict d) = Ret (Continue next) ->
  is_number (dict_get d "Total" (VInt 0)) = true.
Proof.
  intros Hfirst. unfold page_step. cbn [is_None py_get bind].
  rewrite Hfirst. change (1 <? 1) with false. change (1 =? 1) with true.
  rewrite andb_false_r. cbn [bind].
  destruct (dict_get d "Total" (VInt 0)) as [| b | z | f | s | l | d'];
    try reflexivity; discriminate.
Qed.

Lemma run_pages_total_is_number
      (k : nat) (final : session) (trace : list event) :
  run_pages (S k) initial_session = Some (final, trace) ->
  is_number (total_records final) = true.
Proof.
  intros H. destruct (run_pages_initial_total _ _ _ H) as [d [Hd ->]].
  cbn [run_pages] in H.
  destruct (loop_body initial_session) as [[[result|next]|e] events] eqn:Hbody;
    try discriminate.
  apply loop_body_Continue in Hbody. destruct Hbody as [Hstep _].
  cbn [initial_session current_page] in Hstep. rewrite Hd in Hstep.
  exact (first_pass_total_is_number initial_session next d eq_refl Hstep).
Qed.

(** X18. A short page ends the run whatever the total says. When a page
    after the first holds fewer records than [page_size] (and at least one)
    and they are processed without an exception, the call returns the rows
    accumulated so far together with the rows of that page, and asks for no
    further page. *)
Theorem short_page_ends_the_run
        (k fuel : nat) (st : session) (trace : list event)
        (d : pydict) (items permits : list pyval) :
  (1 <= k)%nat ->
  run_pages k initial_session = Some (st, trace) ->
  _make_request (build_payload (Z.of_nat (S k))) = VDict d ->
  dict_get d "Data" (VList []) = VList items ->
  items <> [] ->
  Z.of_nat (List.length items) < page_size ->
  process_page items (all_permits st) = Ret permits ->
  (k < fuel)%nat ->
  fetch_permits_for_date_range fuel
  = (Some (Ret permits), trace ++ [Request (build_payload (Z.of_nat (S k)))])
  /\ permits
     = flat_map (fun page => kept_rows (_make_request (build_payload page)))
         (pages (S k)).
Proof.
  intros Hk Hrun Hresp Hdata Hitems Hshort Hpage Hfuel.
  destruct (run_pages_initial _ _ _ Hrun) as [Hcurrent [Hall _]].
  assert (Hnumber : is_number (total_records st) = true).
  { destruct k as [|k]; [lia|]. exact (run_pages_total_is_number _ _ _ Hrun). }
  assert (Hstep : page_step st (VDict d) = Ret (Break permits)).
  { unfold page_step. cbn [is_None py_get bind]. rewrite Hdata.
    replace (truthy (VList items)) with true
      by (destruct items; [congruence | reflexivity]).
    cbn [negb andb].
    replace (current_page st =? 1) with false
      by (symmetry; apply Z.eqb_neq; lia).
    cbn [bind py_iter]. rewrite Hpage. cbn [bind py_len].
    apply Z.ltb_lt in Hshort. rewrite Hshort.
    unfold py_int_ge, compare_int.
    destruct (total_records st) as [| b | z | f | s | l | d'];
      try discriminate; cbn [bind].
    - destruct (_ ?= _); reflexivity.
    - destruct (_ ?= _); reflexivity.
    - destruct (compare_int_float _ f) as [c|]; [destruct c|]; reflexivity. }
  split.
  - apply (fetch_after_pages_one_more k fuel st trace _ Hrun);
      [| |exact Hfuel]; rewrite Hresp, Hstep.
    + intros c [= <-]. exists permits. split; reflexivity.
    + discriminate.
  - apply process_page_kept in Hpage. rewrite Hpage, Hall, pages_succ.
    rewrite flat_map_app. cbn [flat_map]. rewrite app_nil_r, Hresp.
    rewrite (kept_rows_dict d items); [reflexivity|].
    rewrite Hdata. reflexivity.
Qed.

(** X19. An empty page after the first is the end of the data: when the
    envelope of a page after the first holds no record (an empty list, an
    absent or [null] entry, anything falsy), the call returns exactly the rows
    of the pages before it, without an exception. *)
Theorem empty_later_page_ends_the_run
        (k fuel : nat) (st : session) (trace : list event) (d : pydict) :
  (1 <= k)%nat ->
  run_pages k initial_session = Some (st, trace) ->
  _make_request (build_payload (Z.of_nat (S k))) = VDict d ->
  truthy (dict_get d "Data" (VList [])) = false ->
  (k < fuel)%nat ->
  fetch_permits_for_date_range fuel
  = (Some (Ret (flat_map
                  (fun page => kept_rows (_make_request (build_payload page)))
                  (pages k))),
     trace ++ [Request (build_payload (Z.of_nat (S k)))]).
Proof.
  intros Hk Hrun Hresp Hdata Hfuel.
  destruct (run_pages_initial _ _ _ Hrun) as [Hcurrent [Hall _]].
  assert (Hstep : page_step st (VDict d) = Ret (Break (all_permits st))).
  { unfold page_step. cbn [is_None py_get bind]. rewrite Hdata.
    replace (1 <? current_page st) with true
      by (symmetry; apply Z.ltb_lt; lia).
    reflexivity. }
  rewrite <- Hall.
  apply (fetch_after_pages_one_more k fuel st trace _ Hrun);
    [| |exact Hfuel]; rewrite Hresp, Hstep.
  - intros c [= <-]. eexists. split; reflexivity.
  - discriminate.
Qed.

(** X20. A first page that reports a positive total and holds no record
    ends the run at once with an empty result, after one request. *)
Theorem promised_records_missing (d : pydict) (fuel : nat) :
  _make_request (build_payload 1) = VDict d ->
  py_gt_int (dict_get d "Total" (VInt 0)) 0 = Ret true ->
  truthy (dict_get d "Data" (VList [])) = false ->
  (1 <= fuel)%nat ->
  fetch_permits_for_date_range fuel
  = (Some (Ret []), [Request (build_payload 1)]).
Proof.
  intros Hresp Hpositive Hdata Hfuel. destruct fuel as [|fuel]; [lia|].
  unfold fetch_permits_for_date_range. cbn [fetch_loop]. unfold loop_body.
  cbn [initial_session current_page]. rewrite Hresp. unfold page_step.
  cbn [is_None py_get bind]. rewrite Hdata.
  change (current_page initial_session) with 1.
  change (1 <? 1) with false. change (1 =? 1) with true. cbn [negb andb bind].
  rewrite Hpositive.
  destruct (py_eq_int (dict_get d "Total" (VInt 0)) 0); reflexivity.
Qed.

(** ** The loop and the protocol with the total given *)

(** A pass of the loop is the page of the protocol for the total the pass
    uses: the one it reads on page 1, the one it holds afterwards. *)
Lemma page_step_is_verdict
      (st : session) (response_data : pyval) (total : pyval) :
  (forall d, response_data = VDict d ->
             (if current_page st =? 1
              then dict_get d "Total" (VInt 0) else total_records st) = total) ->
  page_step st response_data
  = match page_verdict total (current_page st) (all_permits st) response_data
    with
    | Ret (Stop result) => Ret (Break result)
    | Ret (Advance permits) =>
        Ret (Continue {| current_page := current_page st + 1;
                         all_permits := permits;
                         total_records := total |})
    | Raise e => Raise e
    end.
Proof.
  intros Htotal. unfold page_step, page_verdict.
  destruct response_data as [| b | z | f | s | l | d];
    cbn [is_None py_get bind]; try reflexivity.
  specialize (Htotal d eq_refl).
  replace (if current_page st =? 1
           then Ret (dict_get d "Total" (VInt 0)) else Ret (total_records st))
    with (Ret (A := pyval) total)
    by (rewrite <- Htotal; destruct (_ =? _); reflexivity).
  cbn [bind].
  assert (Hprocess :
            (items <- py_iter (dict_get d "Data" (VList [])) ;;
             permits <- process_page items (all_permits st) ;;
             enough <- py_int_ge (Z.of_nat (List.length permits)) total ;;
             done <- (if (enough : bool) then Ret true
                      else n <- py_len (dict_get d "Data" (VList [])) ;;
                           Ret (n <? page_size)) ;;
             if (done : bool) then Ret (Break permits)
             else Ret (Continue {| current_page := current_page st + 1;
                                   all_permits := permits;
                                   total_records := total |}))
            = match
                (items <- py_iter (dict_get d "Data" (VList [])) ;;
                 permits <- process_page items (all_permits st) ;;
                 enough <- py_int_ge (Z.of_nat (List.length permits)) total ;;
                 short <- (if (enough : bool) then Ret true
                           else n <- py_len (dict_get d "Data" (VList [])) ;;
                                Ret (n <? page_size)) ;;
                 if (short : bool) then Ret (Stop permits)
                 else Ret (Advance permits))
              with
              | Ret (Stop result) => Ret (Break result)
              | Ret (Advance permits) =>
                  Ret (Continue {| current_page := current_page st + 1;
                                   all_permits := permits;
                                   total_records := total |})
              | Raise e => Raise e
              end).
  { destruct (py_iter _) as [items|e]; cbn [bind]; [|reflexivity].
    destruct (process_page items (all_permits st)) as [permits|e]; cbn [bind];
      [|reflexivity].
    destruct (py_int_ge _ total) as [[]|e]; cbn [bind]; try reflexivity.
    destruct (py_len _) as [n|e]; cbn [bind]; [|reflexivity].
    destruct (n <? page_size); reflexivity. }
  destruct (current_page st =? 1) eqn:Hfirst.
  - apply Z.eqb_eq in Hfirst. rewrite Hfirst. change (1 <? 1) with false.
    rewrite andb_false_r. rewrite Hfirst in Hprocess.
    destruct (py_eq_int total 0); cbn [bind]; [reflexivity|].
    destruct (py_gt_int total 0) as [reported|e]; cbn [bind]; [|reflexivity].
    destruct (reported && negb (truthy (dict_get d "Data" (VList []))))%bool;
      [reflexivity | exact Hprocess].
  - destruct (1 <? current_page st); cbn [bind].
    + rewrite andb_true_r.
      destruct (negb (truthy (dict_get d "Data" (VList []))));
        [reflexivity | exact Hprocess].
    + rewrite andb_false_r. exact Hprocess.
Qed.

(** The whole loop is the run of the protocol for the total of the first
    response. *)
Lemma fetch_loop_given_total (fuel : nat) :
  forall st,
    current_page st = 1 \/ total_records st = first_page_total ->
    fetch_loop fuel st
    = run_given_total first_page_total fuel (current_page st) (all_permits st).
Proof.
  induction fuel as [|fuel IH]; intros st Hst;
    cbn [fetch_loop run_given_total]; [reflexivity|].
  unfold loop_body.
  rewrite (page_step_is_verdict st _ first_page_total).
  - destruct (page_verdict _ _ _ _) as [[result|permits]|e]; try reflexivity.
    destruct (delay_seconds <? 0); [reflexivity|].
    rewrite (IH {| current_page := current_page st + 1;
                   all_permits := permits;
                   total_records := first_page_total |})
      by (right; reflexivity).
    cbn [current_page all_permits].
    destruct (run_given_total _ _ _ _) as [outcome later]. reflexivity.
  - intros d Hd. destruct (current_page st =? 1) eqn:Hfirst.
    + apply Z.eqb_eq in Hfirst. rewrite Hfirst in Hd.
      unfold first_page_total. rewrite Hd. reflexivity.
    + apply Z.eqb_neq in Hfirst. destruct Hst; [contradiction | assumption].
Qed.

Lemma fetch_given_first_total (fuel : nat) :
  fetch_permits_for_date_range fuel
  = run_given_total first_page_total fuel 1 [].
Proof. apply fetch_loop_given_total. left. reflexivity. Qed.

End Scraper.

(** ** The total across two servers *)

Section TwoServers.

Variable int_max_str_digits : nat.
Variable utcoffset : Z -> Z.
Variable fromtimestamp_elsewhere : Z -> res string.
Variable page_size : Z.
Variables server1 server2 : pydict -> http_outcome.
Variable start_date_str end_date_str : string.
Variable delay_seconds : Z.

Local Abbreviation payload := (build_payload page_size start_date_str end_date_str).
Local Abbreviation body server :=
  (loop_body int_max_str_digits utcoffset fromtimestamp_elsewhere page_size
     server start_date_str end_date_str delay_seconds).
Local Abbreviation loop server :=
  (fetch_loop int_max_str_digits utcoffset fromtimestamp_elsewhere page_size
     server start_date_str end_date_str delay_seconds).
Local Abbreviation fetch server :=
  (fetch_permits_for_date_range int_max_str_digits utcoffset
     fromtimestamp_elsewhere page_size server start_date_str end_date_str
     delay_seconds).

Hypothesis same_first_page :
  _make_request server1 (payload 1) = _make_request server2 (payload 1).
Hypothesis same_but_total :
  forall page, 1 < page ->
               drop_total (_make_request server1 (payload page))
               = drop_total (_make_request server2 (payload page)).

Lemma loop_body_same (st : session) :
  1 <= current_page st -> body server1 st = body server2 st.
Proof.
  intros Hpage. unfold loop_body.
  destruct (Z.eq_dec (current_page st) 1) as [Hfirst | Hlater].
  - rewrite Hfirst, same_first_page. reflexivity.
  - rewrite <- (page_step_ignores_total _ _ _ _ st (_make_request server1 _))
      by exact Hlater.
    rewrite <- (page_step_ignores_total _ _ _ _ st (_make_request server2 _))
      by exact Hlater.
    rewrite same_but_total by lia. reflexivity.
Qed.

Lemma fetch_loop_same (fuel : nat) :
  forall st, 1 <= current_page st -> loop server1 fuel st = loop server2 fuel st.
Proof.
  induction fuel as [|fuel IH]; intros st Hpage; cbn [fetch_loop];
    [reflexivity|].
  rewrite <- (loop_body_same st Hpage).
  destruct (body server1 st) as [[[result|next]|e] events] eqn:Hbody;
    try reflexivity.
  apply loop_body_Continue_state in Hbody.
  destruct Hbody as [d [_ [Hnext _]]]. rewrite IH by lia. reflexivity.
Qed.

(** C8. The total the loop compares with is read once, from the envelope
    of the first page (0 when it has none). Every run is the run of the
    protocol in which each check, the one of page 1 included, compares with
    that one value; two servers that agree on the first page and, on every
    later page, on everything but the total give the same run; and after any
    number of passes the total in use is the one of the first response. *)
Theorem total_is_read_on_first_page_only :
  (forall fuel,
      fetch server1 fuel
      = run_given_total int_max_str_digits utcoffset fromtimestamp_elsewhere
          page_size server1 start_date_str end_date_str delay_seconds
          (first_page_total page_size server1 start_date_str end_date_str)
          fuel 1 [])
  /\ (forall fuel, fetch server1 fuel = fetch server2 fuel)
  /\ (forall k final trace,
         run_pages int_max_str_digits utcoffset fromtimestamp_elsewhere
           page_size server1 start_date_str end_date_str delay_seconds
           (S k) initial_session = Some (final, trace) ->
         exists d,
           _make_request server1 (payload 1) = VDict d
           /\ total_records final = dict_get d "Total" (VInt 0)).
Proof.
  split; [|split].
  - intros fuel. apply fetch_given_first_total.
  - intros fuel. apply fetch_loop_same. cbn. lia.
  - intros k final trace H.
    exact (run_pages_initial_total _ _ _ _ _ _ _ _ _ _ _ H).
Qed.

End TwoServers.

(** ** The claims on sample data *)

Abbreviation sample_fetch page_size answers :=
  (fetch_permits_for_date_range 4300 utc year_out_of_range page_size
     (serve answers) "03/27/2025" "04/26/2025" 1).

Abbreviation sample_payload page_size :=
  (build_payload page_size "03/27/2025" "04/26/2025").

(** The interpreter's answers on the same inputs. *)
Example py_int_samples :
  map (py_int 4300)
    [" 12 "; "0_7"; "+5"; "-0"; "007"; "1__2"; "_1"; "1_"; "- 1"; ""; "abc"]
  = [Ret 12; Ret 7; Ret 5; Ret 0; Ret 7; Raise ValueError; Raise ValueError;
     Raise ValueError; Raise ValueError; Raise ValueError; Raise ValueError].
Proof. reflexivity. Qed.

Example strip_samples :
  map (strip "/Date()")
    ["/Date(1700000000000)/"; "/Date(1700000000000"; "/Date(abc)/"; "/Date()/"]
  = ["1700000000000"; "1700000000000"; "bc"; ""]%string.
Proof. reflexivity. Qed.

Example civil_from_days_samples :
  map civil_from_days [0; -1; 11016; 19675; 2932896]
  = [(1970, 1, 1); (1969, 12, 31); (2000, 2, 29); (2023, 11, 14);
     (9999, 12, 31)].
Proof. reflexivity. Qed.

Lemma sample_permit_normalizes (number : string) :
  String.eqb number "" = false ->
  normalizes_to 4300 utc year_out_of_range
    (sample_permit number) (sample_row number).
Proof.
  intros H. split; [|reflexivity].
  unfold sample_permit. rewrite process_permit_data_dict.
  cbn [dict_get String.eqb Ascii.eqb Bool.eqb truthy negb orb].
  rewrite H. reflexivity.
Qed.

Lemma two_pages_in_order_witness :
  fst (sample_fetch 2 two_pages 5%nat)
  = Some (Ret [sample_row "RPV 1"; sample_row "RPV 2"; sample_row "RPV 3"])
  /\ requests (snd (sample_fetch 2 two_pages 5%nat))
     = [sample_payload 2 1; sample_payload 2 2].
Proof.
  destruct (two_pages_in_order 4300 utc year_out_of_range 2 (serve two_pages)
              "03/27/2025" "04/26/2025" 1
              [("Data", VList [sample_permit "RPV 1"; sample_permit "RPV 2"]);
               ("Total", VInt 3)]
              [("Data", VList [sample_permit "RPV 3"]); ("Total", VInt 3)]
              [sample_permit "RPV 1"; sample_permit "RPV 2"]
              [sample_permit "RPV 3"]
              [sample_row "RPV 1"; sample_row "RPV 2"] [sample_row "RPV 3"]
              1 5%nat
              ltac:(lia) ltac:(lia) eq_refl eq_refl eq_refl eq_refl eq_refl
              eq_refl eq_refl
              ltac:(repeat constructor; apply sample_permit_normalizes;
                    reflexivity)
              ltac:(repeat constructor; apply sample_permit_normalizes;
                    reflexivity)
              ltac:(lia)) as [H _].
  rewrite H. split; reflexivity.
Defined.


Lemma required_fields_decide_witness :
  _process_permit_data 4300 utc year_out_of_range (sample_permit "RPV 1")
  = Ret (sample_row "RPV 1")
  /\ _process_permit_data 4300 utc year_out_of_range
       (VDict [("PermitAddress", VStr "200 W WASHINGTON ST")])
     = Ret VNone.
Proof.
  split.
  - destruct (proj2 (required_fields_decide 4300 utc year_out_of_range
                       [("TypeNumber", VStr "RPV 1");
                        ("PermitAddress", VStr "200 W WASHINGTON ST");
                        ("ProfessionalName", VStr "SUN CO");
                        ("IssuedDate", VStr "/Date(1700000000000)/");
                        ("PermitType", VStr "RPV");
                        ("Status", VStr "OPEN")]
                       (VStr "2023-11-14") eq_refl) eq_refl eq_refl)
      as [record [H _]].
    reflexivity.
  - apply (proj1 (required_fields_decide 4300 utc year_out_of_range
                    [("PermitAddress", VStr "200 W WASHINGTON ST")]
                    VNone eq_refl)).
    left. reflexivity.
Defined.

Lemma parse_date_decodes_witness :
  _parse_date 4300 phoenix year_out_of_range (VStr "/Date(1700000000000)/")
  = Ret (VStr "2023-11-14")
  /\ _parse_date 4300 phoenix year_out_of_range (VStr "/Date(abc)/")
     = Ret VNone.
Proof.
  split.
  - apply (proj1 (parse_date_decodes 4300 phoenix year_out_of_range)
             "1700000000000"); [discriminate | reflexivity ..].
  - apply (proj2 (parse_date_decodes 4300 phoenix year_out_of_range)).
    right. exists ValueError. reflexivity.
Defined.

Lemma normalization_does_not_raise_witness :
  _process_permit_data 4300 utc year_out_of_range
    (VDict permit_with_garbage_date)
  = Ret (normalized_record permit_with_garbage_date VNone).
Proof.
  apply (proj2 (normalization_does_not_raise 4300 utc year_out_of_range
                  permit_with_garbage_date eq_refl) "garbage");
    try reflexivity.
  left. reflexivity.
Defined.

Lemma zero_total_is_empty_result_witness :
  sample_fetch 50 empty_range 1%nat
  = (Some (Ret []), [Request (sample_payload 50 1)]).
Proof.
  apply (zero_total_is_empty_result 4300 utc year_out_of_range 50
           (serve empty_range) "03/27/2025" "04/26/2025" 1
           [("Data", VList []); ("Total", VInt 0)]);
    try reflexivity; lia.
Defined.

Lemma full_page_with_matching_total_witness :
  sample_fetch 2 one_full_page 3%nat
  = (Some (Ret [sample_row "RPV 1"; sample_row "RPV 2"]),
     [Request (sample_payload 2 1)]).
Proof.
  apply (proj1 (full_page_with_matching_total 4300 utc year_out_of_range 2
                  (serve one_full_page) "03/27/2025" "04/26/2025" 1
                  [("Data", VList [sample_permit "RPV 1"; sample_permit "RPV 2"]);
                   ("Total", VInt 2)]
                  [sample_permit "RPV 1"; sample_permit "RPV 2"]
                  eq_refl eq_refl eq_refl eq_refl)
           [sample_row "RPV 1"; sample_row "RPV 2"] 3%nat);
    [repeat constructor; apply sample_permit_normalizes; reflexivity | lia].
Defined.

Lemma two_pages_differ_in_total_only (page : Z) :
  1 < page ->
  drop_total (_make_request (serve two_pages) (sample_payload 2 page))
  = drop_total
      (_make_request (serve two_pages_other_total) (sample_payload 2 page)).
Proof.
  intros Hpage. unfold _make_request, serve. cbn [build_payload dict_get String.eqb Ascii.eqb
                                    Bool.eqb two_pages two_pages_other_total
                                    find fst].
  destruct (1 =? page) eqn:H1; [lia|]. destruct (2 =? page); reflexivity.
Qed.

Lemma total_is_read_on_first_page_only_witness :
  sample_fetch 2 two_pages 5%nat
  = run_given_total 4300 utc year_out_of_range 2 (serve two_pages)
      "03/27/2025" "04/26/2025" 1 (VInt 3) 5%nat 1 []
  /\ sample_fetch 2 two_pages 5%nat
     = sample_fetch 2 two_pages_other_total 5%nat
  /\ exists d,
      _make_request (serve two_pages) (sample_payload 2 1) = VDict d
      /\ VInt 3 = dict_get d "Total" (VInt 0).
Proof.
  destruct (total_is_read_on_first_page_only 4300 utc year_out_of_range 2
              (serve two_pages) (serve two_pages_other_total)
              "03/27/2025" "04/26/2025" 1 eq_refl
              two_pages_differ_in_total_only) as [Hrun [Hsame Htotal]].
  split; [exact (Hrun 5%nat)|]. split; [exact (Hsame 5%nat)|].
  exact (Htotal 0%nat
           {| current_page := 2;
              all_permits := [sample_row "RPV 1"; sample_row "RPV 2"];
              total_records := VInt 3 |}
           [Request (sample_payload 2 1); Sleep 1] eq_refl).
Defined.

Lemma every_request_selects_its_page_witness :
  payload_for_page 2 "03/27/2025" "04/26/2025" 2 (sample_payload 2 2).
Proof.
  apply (every_request_selects_its_page 4300 utc year_out_of_range 2
           (serve two_pages) "03/27/2025" "04/26/2025" 1 5%nat 1%nat).
  reflexivity.
Defined.

Lemma rows_share_one_key_list_witness :
  Forall (row_with_keys record_keys)
    [sample_row "RPV 1"; sample_row "RPV 2"; sample_row "RPV 3"].
Proof.
  exact (proj1 (proj2 (rows_share_one_key_list 4300 utc year_out_of_range 2
                         (serve two_pages) "03/27/2025" "04/26/2025" 1)
                  5%nat
                  [sample_row "RPV 1"; sample_row "RPV 2"; sample_row "RPV 3"]
                  [Request (sample_payload 2 1); Sleep 1;
                   Request (sample_payload 2 2)]
                  eq_refl)).
Defined.

(** ** Where the code and the claims part *)

(** C3. A record without [TypeNumber] is to be rejected, as the docstring
    of [_process_permit_data] says too ([None] if essential data is missing).
    The code does not reject this one: its [IssuedDate] is a non-zero integer,
    [_parse_date] asks it for [startswith] outside the [try], and the call
    raises [AttributeError]. *)
Lemma integer_date_is_not_rejected :
  truthy (dict_get [("IssuedDate", VInt 5)] "TypeNumber" VNone) = false
  /\ _process_permit_data 4300 utc year_out_of_range
       (VDict [("IssuedDate", VInt 5)])
     = Raise AttributeError.
Proof. split; reflexivity. Qed.


(** C4 as stated fails: a string that starts with [/Date(] but lacks the
    closing [)/] does not match the wrapper, yet decodes to a date; and on a
    platform whose [fromtimestamp] answers year 10000 with [ValueError] a
    well-formed string decodes to [None]. *)
Lemma unwrapped_string_decodes :
  has_wrapper "/Date(1700000000000" = false
  /\ _parse_date 4300 utc year_out_of_range (VStr "/Date(1700000000000")
     = Ret (VStr "2023-11-14")
  /\ has_wrapper "/Date(253402300800000)/" = true
  /\ _parse_date 4300 utc year_out_of_range (VStr "/Date(253402300800000)/")
     = Ret VNone.
Proof. repeat split; reflexivity. Qed.

(** C5. Normalisation is not to raise, and [_parse_date] is documented to
    return [None] when parsing fails. With both required fields present the
    code raises [AttributeError] on an integer [IssuedDate]: the guard that
    calls [startswith] is outside the [try]. *)
Lemma integer_date_raises :
  _process_permit_data 4300 utc year_out_of_range permit_with_integer_date
  = Raise AttributeError.
Proof. reflexivity. Qed.

(** C7 as stated fails: page 1 holds [page_size = 1] raw record and
    reports a total of 1, but the record is rejected, and the run requests
    page 2 and returns no row. *)
Lemma rejected_record_costs_a_request :
  _make_request (serve one_rejected_page) (sample_payload 1 1)
  = VDict [("Data", VList [VDict []]); ("Total", VInt 1)]
  /\ sample_fetch 1 one_rejected_page 5%nat
     = (Some (Ret []),
        [Request (sample_payload 1 1); Sleep 1; Request (sample_payload 1 2)]).
Proof. split; reflexivity. Qed.

(** ** The further properties on sample data *)

Lemma make_request_contract_witness :
  _make_request (serve empty_range) (sample_payload 50 1) = envelope [] 0
  /\ _make_request (serve empty_range) (sample_payload 50 2) = VNone.
Proof.
  split.
  - apply (proj2 (make_request_contract (serve empty_range)
                    (sample_payload 50 1)) 200); [reflexivity | lia].
  - apply (proj1 (make_request_contract (serve empty_range)
                    (sample_payload 50 2))).
    left. left. reflexivity.
Defined.

Lemma parse_date_escapes_witness :
  (AttributeError = AttributeError
   /\ truthy (VInt 5) = true /\ forall s, VInt 5 <> VStr s)
  \/ (exists s timestamp_ms,
         VInt 5 = VStr s
         /\ startswith s "/Date(" = true
         /\ py_int 4300 (strip "/Date()" s) = Ret timestamp_ms
         /\ in_datetime_range utc timestamp_ms = false
         /\ year_out_of_range timestamp_ms = Raise AttributeError
         /\ AttributeError <> ValueError /\ AttributeError <> TypeError).
Proof.
  exact (parse_date_escapes 4300 utc year_out_of_range (VInt 5) AttributeError
           eq_refl).
Defined.

Lemma decoded_date_is_a_calendar_date_witness :
  exists y m d,
    local_date phoenix 1700000000000 = (y, m, d)
    /\ _parse_date 4300 phoenix year_out_of_range (VStr "/Date( +1_700_000_000_000")
       = Ret (VStr (pad4 y ++ "-" ++ pad2 m ++ "-" ++ pad2 d))
    /\ String.length (pad4 y ++ "-" ++ pad2 m ++ "-" ++ pad2 d) = 10%nat
    /\ decimal_value 0 (pad4 y) = y
    /\ decimal_value 0 (pad2 m) = m
    /\ decimal_value 0 (pad2 d) = d
    /\ 1000 <= y <= 9999 /\ 1 <= m <= 12 /\ 1 <= d <= 31.
Proof.
  exact (decoded_date_is_a_calendar_date 4300 phoenix year_out_of_range
           "/Date( +1_700_000_000_000" 1700000000000 eq_refl eq_refl eq_refl).
Defined.

Lemma parse_date_ignores_trailing_wrapper_witness :
  _parse_date 4300 utc year_out_of_range (VStr "/Date(1700000000000)/)/Date")
  = _parse_date 4300 utc year_out_of_range (VStr "/Date(1700000000000").
Proof.
  exact (parse_date_ignores_trailing_wrapper 4300 utc year_out_of_range
           "/Date(1700000000000" ")/)/Date" eq_refl eq_refl).
Defined.

Lemma sample_permit_reordered_agrees (key : string) :
  In key ["TypeNumber"; "PermitAddress"; "ProfessionalName"; "IssuedDate";
          "PermitType"; "Status"] ->
  dict_get (sample_permit_reordered "RPV 1") key VNone
  = match sample_permit "RPV 1" with
    | VDict d => dict_get d key VNone
    | _ => VNone
    end.
Proof.
  cbn [In]. intros H.
  repeat (destruct H as [<- | H]; [reflexivity|]). contradiction.
Qed.

Lemma process_permit_data_reads_six_keys_witness :
  _process_permit_data 4300 utc year_out_of_range
    (VDict (sample_permit_reordered "RPV 1"))
  = _process_permit_data 4300 utc year_out_of_range (sample_permit "RPV 1").
Proof.
  exact (process_permit_data_reads_six_keys 4300 utc year_out_of_range
           (sample_permit_reordered "RPV 1") _ sample_permit_reordered_agrees).
Defined.

Lemma fetch_returns_valid_rows_witness :
  Forall valid_row
    [sample_row "RPV 1"; sample_row "RPV 2"; sample_row "RPV 3"].
Proof.
  exact (fetch_returns_valid_rows 4300 utc year_out_of_range 2
           (serve two_pages) "03/27/2025" "04/26/2025" 1 5%nat
           [sample_row "RPV 1"; sample_row "RPV 2"; sample_row "RPV 3"]
           [Request (sample_payload 2 1); Sleep 1; Request (sample_payload 2 2)]
           eq_refl).
Defined.

Lemma fetch_result_is_kept_rows_witness :
  [sample_row "RPV 1"; sample_row "RPV 2"; sample_row "RPV 3"]
  = flat_map
      (fun page =>
         kept_rows 4300 utc year_out_of_range
           (_make_request (serve two_pages) (sample_payload 2 page)))
      (pages 2)
  \/ ([sample_row "RPV 1"; sample_row "RPV 2"; sample_row "RPV 3"] = []
      /\ [sample_payload 2 1; sample_payload 2 2] = [sample_payload 2 1]
      /\ exists d,
          _make_request (serve two_pages) (sample_payload 2 1) = VDict d
          /\ py_eq_int (dict_get d "Total" (VInt 0)) 0 = true).
Proof.
  exact (fetch_result_is_kept_rows 4300 utc year_out_of_range 2
           (serve two_pages) "03/27/2025" "04/26/2025" 1 5%nat
           [sample_row "RPV 1"; sample_row "RPV 2"; sample_row "RPV 3"]
           [Request (sample_payload 2 1); Sleep 1; Request (sample_payload 2 2)]
           eq_refl).
Defined.

Lemma requests_are_paced_witness :
  exists m,
    [Request (sample_payload 2 1); Sleep 1; Request (sample_payload 2 2)]
    = paced_requests 2 "03/27/2025" "04/26/2025" 1 1 (S m).
Proof.
  exact (requests_are_paced 4300 utc year_out_of_range 2
           (serve two_pages) "03/27/2025" "04/26/2025" 1 5%nat
           (Ret [sample_row "RPV 1"; sample_row "RPV 2"; sample_row "RPV 3"])
           [Request (sample_payload 2 1); Sleep 1; Request (sample_payload 2 2)]
           eq_refl).
Defined.

Lemma two_pages_well_formed (page : Z) :
  1 <= page ->
  page_well_formed 4300 utc year_out_of_range 2 (serve two_pages)
    "03/27/2025" "04/26/2025" page.
Proof.
  intros _. unfold page_well_formed, _make_request, serve.
  cbn [build_payload dict_get String.eqb Ascii.eqb Bool.eqb two_pages find fst].
  destruct (1 =? page).
  - right. eexists. eexists. exists [sample_row "RPV 1"; sample_row "RPV 2"].
    repeat split; try reflexivity.
    repeat constructor; apply sample_permit_normalizes; reflexivity.
  - destruct (2 =? page); [|left; reflexivity].
    right. eexists. eexists. exists [sample_row "RPV 3"].
    repeat split; try reflexivity.
    repeat constructor; apply sample_permit_normalizes; reflexivity.
Qed.

Lemma two_pages_total (d : pydict) :
  _make_request (serve two_pages) (sample_payload 2 1) = VDict d ->
  dict_get d "Total" (VInt 0) = VInt 3.
Proof. intros [= <-]. reflexivity. Qed.

Lemma well_formed_pages_end_the_run_witness :
  exists result trace,
    sample_fetch 2 two_pages 2%nat = (Some (Ret result), trace)
    /\ (List.length (requests trace) <= 2)%nat.
Proof.
  exact (well_formed_pages_end_the_run 4300 utc year_out_of_range 2
           (serve two_pages) "03/27/2025" "04/26/2025" 1 3
           ltac:(lia) ltac:(lia) two_pages_well_formed two_pages_total).
Defined.

Lemma always_rejected_pages (page : Z) :
  1 <= page ->
  page_all_rejected 4300 utc year_out_of_range 1 always_rejected
    "03/27/2025" "04/26/2025" page.
Proof.
  intros _. exists [("Data", VList [VDict []]); ("Total", VInt 1)], [VDict []].
  repeat split; try reflexivity. repeat constructor.
Qed.

Lemma always_rejected_total (d : pydict) :
  _make_request always_rejected (sample_payload 1 1) = VDict d ->
  dict_get d "Total" (VInt 0) = VInt 1.
Proof. intros [= <-]. reflexivity. Qed.

Lemma rejected_full_pages_never_end_witness :
  fst (fetch_permits_for_date_range 4300 utc year_out_of_range 1
         always_rejected "03/27/2025" "04/26/2025" 1 1000%nat) = None
  /\ List.length
       (requests
          (snd (fetch_permits_for_date_range 4300 utc year_out_of_range 1
                  always_rejected "03/27/2025" "04/26/2025" 1 1000%nat)))
     = 1000%nat.
Proof.
  exact (rejected_full_pages_never_end 4300 utc year_out_of_range 1
           always_rejected "03/27/2025" "04/26/2025" 1 1
           ltac:(lia) ltac:(lia) ltac:(lia)
           always_rejected_pages always_rejected_total 1000%nat).
Defined.

Lemma negative_delay_stops_after_first_page_witness :
  exists outcome,
    fetch_permits_for_date_range 4300 utc year_out_of_range 2
      (serve two_pages) "03/27/2025" "04/26/2025" (-1) 5%nat
    = (Some outcome, [Request (sample_payload 2 1)])
    /\ (forall next,
           page_step 4300 utc year_out_of_range 2 initial_session
             (_make_request (serve two_pages) (sample_payload 2 1))
           = Ret (Continue next) ->
           outcome = Raise ValueError).
Proof.
  exact (negative_delay_stops_after_first_page 4300 utc year_out_of_range 2
           (serve two_pages) "03/27/2025" "04/26/2025" (-1) 5%nat
           ltac:(lia) ltac:(lia)).
Defined.

Lemma non_object_body_discards_rows_witness :
  sample_fetch 2 list_on_second_page 5%nat
  = (Some (Raise AttributeError),
     [Request (sample_payload 2 1); Sleep 1; Request (sample_payload 2 2)]).
Proof.
  exact (non_object_body_discards_rows 4300 utc year_out_of_range 2
           (serve list_on_second_page) "03/27/2025" "04/26/2025" 1
           1%nat 5%nat
           {| current_page := 2;
              all_permits := [sample_row "RPV 1"; sample_row "RPV 2"];
              total_records := VInt 3 |}
           [Request (sample_payload 2 1); Sleep 1]
           eq_refl ltac:(discriminate) ltac:(discriminate) ltac:(lia)).
Defined.

Lemma non_numeric_total_raises_witness :
  sample_fetch 50 total_as_text 5%nat
  = (Some (Raise TypeError), [Request (sample_payload 50 1)]).
Proof.
  exact (non_numeric_total_raises 4300 utc year_out_of_range 50
           (serve total_as_text) "03/27/2025" "04/26/2025" 1
           [("Data", VList [sample_permit "RPV 1"]); ("Total", VStr "1")]
           5%nat eq_refl eq_refl ltac:(lia)).
Defined.

Lemma sample_permit_returns :
  Forall (fun permit_json =>
            exists out,
              _process_permit_data 4300 utc year_out_of_range permit_json
              = Ret out)
    [sample_permit "RPV 3"].
Proof.
  constructor; [|constructor]. exists (sample_row "RPV 3"). reflexivity.
Qed.

Lemma record_exception_discards_rows_witness :
  sample_fetch 2 integer_date_on_second_page 5%nat
  = (Some (Raise AttributeError),
     [Request (sample_payload 2 1); Sleep 1; Request (sample_payload 2 2)]).
Proof.
  exact (record_exception_discards_rows 4300 utc year_out_of_range 2
           (serve integer_date_on_second_page) "03/27/2025" "04/26/2025" 1
           1%nat 5%nat
           {| current_page := 2;
              all_permits := [sample_row "RPV 1"; sample_row "RPV 2"];
              total_records := VInt 4 |}
           [Request (sample_payload 2 1); Sleep 1]
           [("Data", VList [sample_permit "RPV 3"; permit_with_integer_date]);
            ("Total", VInt 4)]
           [sample_permit "RPV 3"] permit_with_integer_date [] AttributeError
           ltac:(lia) eq_refl eq_refl eq_refl
           sample_permit_returns
           eq_refl ltac:(lia)).
Defined.

Lemma sample_rows_share_keys (numbers : list string) :
  Forall (row_with_keys record_keys) (map sample_row numbers).
Proof.
  induction numbers as [|number numbers IH]; constructor; [|exact IH].
  eexists. split; reflexivity.
Qed.

Lemma save_to_csv_writes_every_row_witness :
  save_to_csv every_file_opens [sample_row "RPV 1"; sample_row "RPV 2"]
    "permits.csv"
  = Ret {| file_rows :=
             Some [map VStr record_keys;
                   row_cells record_keys (sample_row "RPV 1");
                   row_cells record_keys (sample_row "RPV 2")];
           reported := None |}.
Proof.
  exact (save_to_csv_writes_every_row every_file_opens
           [sample_row "RPV 1"; sample_row "RPV 2"] record_keys "permits.csv"
           eq_refl (sample_rows_share_keys ["RPV 1"; "RPV 2"]) eq_refl).
Defined.

Lemma save_to_csv_stops_at_unknown_key_witness :
  save_to_csv every_file_opens
    [sample_row "RPV 1"; VDict [("parcel", VStr "112-21-001")];
     sample_row "RPV 2"]
    "permits.csv"
  = Ret {| file_rows :=
             Some [map VStr record_keys;
                   row_cells record_keys (sample_row "RPV 1")];
           reported := Some ValueError |}.
Proof.
  exact (save_to_csv_stops_at_unknown_key every_file_opens
           [sample_row "RPV 1"] [sample_row "RPV 2"] record_keys
           [("parcel", VStr "112-21-001")] "parcel" "permits.csv"
           eq_refl (sample_rows_share_keys ["RPV 1"])
           (or_introl eq_refl)
           ltac:(cbn [record_keys In]; intros H;
                 repeat (destruct H as [H | H]; [discriminate|]);
                 contradiction)
           eq_refl).
Defined.

Lemma fetch_and_save_outcomes_witness :
  fetch_and_save 4300 utc year_out_of_range 2 (serve two_pages)
    "03/27/2025" "04/26/2025" 1 every_file_opens
    "phoenix_solar_permits_20250327-20250426.csv" 5%nat
  = Some {| file_rows :=
              Some (map VStr record_keys
                    :: map (row_cells record_keys)
                         [sample_row "RPV 1"; sample_row "RPV 2";
                          sample_row "RPV 3"]);
            reported := None |}.
Proof.
  exact (fetch_and_save_outcomes 4300 utc year_out_of_range 2
           (serve two_pages) "03/27/2025" "04/26/2025" 1 every_file_opens
           "phoenix_solar_permits_20250327-20250426.csv" 5%nat
           (Ret [sample_row "RPV 1"; sample_row "RPV 2"; sample_row "RPV 3"])
           [Request (sample_payload 2 1); Sleep 1; Request (sample_payload 2 2)]
           eq_refl).
Defined.

Lemma short_page_ends_the_run_witness :
  sample_fetch 2 short_second_page 5%nat
  = (Some (Ret [sample_row "RPV 1"; sample_row "RPV 2"; sample_row "RPV 3"]),
     [Request (sample_payload 2 1); Sleep 1; Request (sample_payload 2 2)]).
Proof.
  exact (proj1
           (short_page_ends_the_run 4300 utc year_out_of_range 2
              (serve short_second_page) "03/27/2025" "04/26/2025" 1
              1%nat 5%nat
              {| current_page := 2;
                 all_permits := [sample_row "RPV 1"; sample_row "RPV 2"];
                 total_records := VInt 10 |}
              [Request (sample_payload 2 1); Sleep 1]
              [("Data", VList [sample_permit "RPV 3"]); ("Total", VInt 10)]
              [sample_permit "RPV 3"]
              [sample_row "RPV 1"; sample_row "RPV 2"; sample_row "RPV 3"]
              ltac:(lia) eq_refl eq_refl eq_refl ltac:(discriminate)
              ltac:(cbn; lia) eq_refl ltac:(lia))).
Defined.

Lemma empty_later_page_ends_the_run_witness :
  sample_fetch 2 empty_second_page 5%nat
  = (Some (Ret (flat_map
                  (fun page =>
                     kept_rows 4300 utc year_out_of_range
                       (_make_request (serve empty_second_page)
                          (sample_payload 2 page)))
                  (pages 1))),
     [Request (sample_payload 2 1); Sleep 1; Request (sample_payload 2 2)]).
Proof.
  exact (empty_later_page_ends_the_run 4300 utc year_out_of_range 2
           (serve empty_second_page) "03/27/2025" "04/26/2025" 1
           1%nat 5%nat
           {| current_page := 2;
              all_permits := [sample_row "RPV 1"; sample_row "RPV 2"];
              total_records := VInt 10 |}
           [Request (sample_payload 2 1); Sleep 1]
           [("Data", VList []); ("Total", VInt 10)]
           ltac:(lia) eq_refl eq_refl eq_refl ltac:(lia)).
Defined.

Lemma promised_records_missing_witness :
  sample_fetch 50 promised_but_empty 5%nat
  = (Some (Ret []), [Request (sample_payload 50 1)]).
Proof.
  exact (promised_records_missing 4300 utc year_out_of_range 50
           (serve promised_but_empty) "03/27/2025" "04/26/2025" 1
           [("Data", VList []); ("Total", VInt 5)] 5%nat
           eq_refl eq_refl eq_refl ltac:(lia)).
Defined.
